(** * Booking-Agent: a shallow embedding of [main.py] and [streamlit_app.py]

    The development follows the layout of the program:

    - [PyStr]      the string operations of Python the code relies on
                   ([str.lower], [in], [str.strip], number formatting);
    - [PyDatetime] naive [datetime] values, [replace], [weekday],
                   adding a [timedelta], [isoformat] and [strftime];
    - [Calendar]   [GoogleCalendarService]: [get_events], [create_event],
                   [_format_event], [_get_mock_events];
    - [Agent]      the tools, [call_model], [should_continue], [call_tool]
                   and the two-node graph [app_graph];
    - [Api]        [call_groq_ai] and [chat_endpoint];
    - [Client]     one run of the script [streamlit_app.py].

    Conventions.  Text is a [string] of ASCII characters: [lower] and
    [strip] act on the ASCII letters and the ASCII white space, which is
    what Python does on ASCII text.  Python exceptions are values of [exn]
    carried by [Result]; [try ... except Exception] becomes a [match] on
    it.  Everything the process reads from outside (the clock, the local
    time zone, the calendar provider, the environment variable, the HTTP
    reply of the completion service, [dateutil]'s parser) is a field of
    the record [World]. *)

From Stdlib Require Import ZArith List String Ascii Bool Lia DecimalString.
From stdpp Require Import gmap strings.
Import ListNotations.
Open Scope string_scope.
Open Scope Z_scope.

(* ================================================================== *)
(** ** Exceptions *)

Inductive exn : Type :=
| KeyError (key : string)
| IndexError (msg : string)
| TypeError (msg : string)
| AttributeError (msg : string)
| OverflowError (msg : string)
| HTTPException (status_code : Z) (detail : string)
| GraphRecursionError (msg : string)
| OtherError (msg : string).

Inductive Result (A : Type) : Type :=
| Ok (a : A)
| Raise (e : exn).
Arguments Ok {A} a.
Arguments Raise {A} e.

Definition bind {A B : Type} (r : Result A) (k : A -> Result B) : Result B :=
  match r with
  | Ok a => k a
  | Raise e => Raise e
  end.

Notation "'let*' x ':=' r 'in' k" := (bind r (fun x => k))
  (at level 10, x name, r at level 100, k at level 200).

(* ================================================================== *)
(** ** Python strings *)

Module PyStr.

(** [c.lower()] on one ASCII character. *)
Definition lower_ascii (c : ascii) : ascii :=
  let n := nat_of_ascii c in
  if (Nat.leb 65 n && Nat.leb n 90)%bool then ascii_of_nat (n + 32) else c.

(** [s.lower()]. *)
Fixpoint lower (s : string) : string :=
  match s with
  | EmptyString => EmptyString
  | String c s' => String (lower_ascii c) (lower s')
  end.

(** [needle in hay] on strings: substring test. *)
Fixpoint str_in (needle hay : string) : bool :=
  String.prefix needle hay
  || match hay with
     | EmptyString => false
     | String _ hay' => str_in needle hay'
     end.

(** [any(word in text for word in words)]. *)
Definition any_in (words : list string) (text : string) : bool :=
  existsb (fun word => str_in word text) words.

(** ASCII white space as [str.isspace] sees it. *)
Definition is_space (c : ascii) : bool :=
  let n := nat_of_ascii c in
  ((Nat.leb 9 n && Nat.leb n 13) || (Nat.leb 28 n && Nat.leb n 32))%bool.

Fixpoint lstrip (s : string) : string :=
  match s with
  | EmptyString => EmptyString
  | String c s' => if is_space c then lstrip s' else s
  end.

Fixpoint rstrip (s : string) : string :=
  match s with
  | EmptyString => EmptyString
  | String c s' =>
      match rstrip s' with
      | EmptyString => if is_space c then EmptyString else String c EmptyString
      | r => String c r
      end
  end.

(** [s.strip()]. *)
Definition strip (s : string) : string := rstrip (lstrip s).

(** [str(n)] for an integer. *)
Definition dec (z : Z) : string := NilZero.string_of_int (Z.to_int z).

(** [s.zfill(width)] for the digits of a number [n >= 0]:
    ["%02d" % n] is [zfill 2 (dec n)]. *)
Fixpoint zeros (n : nat) : string :=
  match n with
  | O => ""
  | S n' => "0" ++ zeros n'
  end.

Definition zfill (width : nat) (s : string) : string :=
  zeros (width - String.length s) ++ s.

Definition pad2 (z : Z) : string := zfill 2 (dec z).
Definition pad4 (z : Z) : string := zfill 4 (dec z).
Definition pad6 (z : Z) : string := zfill 6 (dec z).

(** ["\n".join(parts)]. *)
Fixpoint join_lines (parts : list string) : string :=
  match parts with
  | [] => ""
  | [p] => p
  | p :: rest => p ++ String (ascii_of_nat 10) (join_lines rest)
  end.

Definition nl : string := String (ascii_of_nat 10) EmptyString.

End PyStr.

(* ================================================================== *)
(** ** Naive [datetime] values

    The calendar arithmetic is the one of CPython's [datetime] module
    ([_is_leap], [_days_before_year], [_ymd2ord], [_ord2ymd]). *)

Module PyDatetime.

Record datetime : Type := mkdt {
  year : Z; month : Z; day : Z;
  hour : Z; minute : Z; second : Z; microsecond : Z
}.

Definition MAXYEAR : Z := 9999.
Definition MAXORDINAL : Z := 3652059.

Definition is_leap (y : Z) : bool :=
  (y mod 4 =? 0) && (negb (y mod 100 =? 0) || (y mod 400 =? 0)).

Definition days_before_year (y : Z) : Z :=
  let y' := y - 1 in
  y' * 365 + y' / 4 - y' / 100 + y' / 400.

(** [_DAYS_IN_MONTH], with the [-1] placeholder at index 0. *)
Definition DAYS_IN_MONTH : list Z :=
  [-1; 31; 28; 31; 30; 31; 30; 31; 31; 30; 31; 30; 31].

(** [_DAYS_BEFORE_MONTH]. *)
Definition DAYS_BEFORE_MONTH : list Z :=
  [-1; 0; 31; 59; 90; 120; 151; 181; 212; 243; 273; 304; 334].

Definition table (t : list Z) (i : Z) : Z := nth (Z.to_nat i) t 0.

Definition days_in_month (y m : Z) : Z :=
  if (m =? 2) && is_leap y then 29 else table DAYS_IN_MONTH m.

Definition days_before_month (y m : Z) : Z :=
  table DAYS_BEFORE_MONTH m + (if (2 <? m) && is_leap y then 1 else 0).

Definition ymd2ord (y m d : Z) : Z :=
  days_before_year y + days_before_month y m + d.

Definition DI400Y : Z := 146097.
Definition DI100Y : Z := 36524.
Definition DI4Y : Z := 1461.

(** The end of [_ord2ymd]: month and day from the day [n] of the year,
    counted from 0. *)
Definition month_day (leapyear : bool) (n : Z) : Z * Z :=
  let m := Z.shiftr (n + 50) 5 in
  let preceding :=
    table DAYS_BEFORE_MONTH m + (if (2 <? m) && leapyear then 1 else 0) in
  if n <? preceding then
    let m' := m - 1 in
    let preceding' :=
      preceding
      - (table DAYS_IN_MONTH m' + (if (m' =? 2) && leapyear then 1 else 0)) in
    (m', n - preceding' + 1)
  else (m, n - preceding + 1).

(** [_ord2ymd], from the offset [n] inside a 400-year cycle that
    starts in year [year0]. *)
Definition ord2ymd_cycle (year0 n : Z) : Z * Z * Z :=
  let n100 := n / DI100Y in
  let n := n mod DI100Y in
  let n4 := n / DI4Y in
  let n := n mod DI4Y in
  let n1 := n / 365 in
  let n := n mod 365 in
  let y := year0 + n100 * 100 + n4 * 4 + n1 in
  if (n1 =? 4) || (n100 =? 4) then (y - 1, 12, 31)
  else
    let leapyear := (n1 =? 3) && (negb (n4 =? 24) || (n100 =? 3)) in
    let '(m, d) := month_day leapyear n in
    (y, m, d).

Definition ord2ymd (n : Z) : Z * Z * Z :=
  let n := n - 1 in
  ord2ymd_cycle ((n / DI400Y) * 400 + 1) (n mod DI400Y).

Definition toordinal (dt : datetime) : Z :=
  ymd2ord (year dt) (month dt) (day dt).

(** [dt.weekday()]: Monday is 0, Sunday is 6. *)
Definition weekday (dt : datetime) : Z := (toordinal dt + 6) mod 7.

(** What the constructor checks ([_check_date_fields],
    [_check_time_fields]): every [datetime] object satisfies it. *)
Definition valid (dt : datetime) : bool :=
  (1 <=? year dt) && (year dt <=? MAXYEAR)
  && (1 <=? month dt) && (month dt <=? 12)
  && (1 <=? day dt) && (day dt <=? days_in_month (year dt) (month dt))
  && (0 <=? hour dt) && (hour dt <=? 23)
  && (0 <=? minute dt) && (minute dt <=? 59)
  && (0 <=? second dt) && (second dt <=? 59)
  && (0 <=? microsecond dt) && (microsecond dt <=? 999999).

(** [dt.replace(hour=h)] and its siblings, as the code calls them. *)
Definition replace_hour (dt : datetime) (h : Z) : datetime :=
  mkdt (year dt) (month dt) (day dt) h (minute dt) (second dt) (microsecond dt).

Definition replace_hm (dt : datetime) (h mi : Z) : datetime :=
  mkdt (year dt) (month dt) (day dt) h mi (second dt) (microsecond dt).

Definition replace_hmsu (dt : datetime) (h mi s us : Z) : datetime :=
  mkdt (year dt) (month dt) (day dt) h mi s us.

(** A normalised [timedelta]. *)
Record timedelta : Type := mktd { td_days : Z; td_seconds : Z; td_micros : Z }.

Definition days (n : Z) : timedelta := mktd n 0 0.
Definition hours (n : Z) : timedelta :=
  mktd ((n * 3600) / 86400) ((n * 3600) mod 86400) 0.

(** [dt + td] ([datetime.__add__]): through the ordinal of the date. *)
Definition add (dt : datetime) (td : timedelta) : Result datetime :=
  let us := microsecond dt + td_micros td in
  let secs :=
    hour dt * 3600 + minute dt * 60 + second dt + td_seconds td + us / 1000000 in
  let ds := toordinal dt + td_days td + secs / 86400 in
  let s := secs mod 86400 in
  if (0 <? ds) && (ds <=? MAXORDINAL) then
    let '(y, m, d) := ord2ymd ds in
    Ok (mkdt y m d (s / 3600) ((s mod 3600) / 60) ((s mod 3600) mod 60)
             (us mod 1000000))
  else Raise (OverflowError "date value out of range").

(** [dt.isoformat()] of a naive value. *)
Definition isoformat (dt : datetime) : string :=
  PyStr.pad4 (year dt) ++ "-" ++ PyStr.pad2 (month dt) ++ "-"
  ++ PyStr.pad2 (day dt) ++ "T" ++ PyStr.pad2 (hour dt) ++ ":"
  ++ PyStr.pad2 (minute dt) ++ ":" ++ PyStr.pad2 (second dt)
  ++ (if microsecond dt =? 0 then "" else "." ++ PyStr.pad6 (microsecond dt)).

(** [strftime] directives, in the C locale. *)
Definition day_name (wd : Z) : string :=
  nth (Z.to_nat wd)
      ["Monday"; "Tuesday"; "Wednesday"; "Thursday"; "Friday";
       "Saturday"; "Sunday"] "".

Definition month_name (m : Z) : string :=
  nth (Z.to_nat m)
      [""; "January"; "February"; "March"; "April"; "May"; "June"; "July";
       "August"; "September"; "October"; "November"; "December"] "".

Definition hour12 (h : Z) : Z := if h mod 12 =? 0 then 12 else h mod 12.
Definition am_pm (h : Z) : string := if h <? 12 then "AM" else "PM".

(** [dt.strftime("%Y%m%d")], for the years of four digits. *)
Definition fmt_Ymd (dt : datetime) : string :=
  PyStr.pad4 (year dt) ++ PyStr.pad2 (month dt) ++ PyStr.pad2 (day dt).

(** [dt.strftime('%A, %B %d')]. *)
Definition fmt_A_B_d (dt : datetime) : string :=
  day_name (weekday dt) ++ ", " ++ month_name (month dt) ++ " "
  ++ PyStr.pad2 (day dt).

(** [dt.strftime('%I:%M %p')]. *)
Definition fmt_I_M_p (dt : datetime) : string :=
  PyStr.pad2 (hour12 (hour dt)) ++ ":" ++ PyStr.pad2 (minute dt) ++ " "
  ++ am_pm (hour dt).

(** [dt.strftime('%A, %B %d at %I:%M %p')]. *)
Definition fmt_slot (dt : datetime) : string :=
  fmt_A_B_d dt ++ " at " ++ fmt_I_M_p dt.

End PyDatetime.

(* ================================================================== *)
(** ** The world outside the process *)

(** An event resource of the calendar provider: a dictionary whose keys
    may be absent. *)
Record GTime : Type := mkGTime {
  gt_dateTime : option string;
  gt_date : option string
}.

Record GEvent : Type := mkGEvent {
  g_id : option string;
  g_summary : option string;
  g_start : option GTime;
  g_end : option GTime;
  g_status : option string
}.

(** The body [create_event] sends to [events().insert]. *)
Record GBody : Type := mkGBody {
  b_summary : string;
  b_description : string;
  b_start_dateTime : string;
  b_start_timeZone : string;
  b_end_dateTime : string;
  b_end_timeZone : string
}.

(** [self.service]: [events().list(...).execute()] answers with the
    ['items'] of the reply (absent when the key is), or raises;
    [events().insert(...).execute()] answers with the created resource,
    or raises. *)
Record Provider : Type := mkProvider {
  events_list : string -> string -> Result (option (list GEvent));
  events_insert : GBody -> Result GEvent
}.

(** What [response.json()] can return. *)
#[local] Set Warnings "-register-all".
Inductive json : Type :=
| JNull
| JBool (b : bool)
| JNum (z : Z)
| JStr (s : string)
| JArr (items : list json)
| JObj (fields : list (string * json)).

Record World : Type := mkWorld {
  (** [datetime.now()] *)
  now : PyDatetime.datetime;
  (** [datetime.now()] when a call reads the clock a second time *)
  now_again : PyDatetime.datetime;
  (** [int(dt.timestamp())], which reads the local time zone *)
  timestamp : PyDatetime.datetime -> Result Z;
  (** [calendar_service.service], as [setup_calendar_service] left it *)
  service : option Provider;
  (** [dateutil.parser.parse]; [None] is Python's [None] *)
  parse : option string -> Result PyDatetime.datetime;
  (** [os.getenv("GROQ_API_KEY")] *)
  GROQ_API_KEY : option string;
  (** [requests.post(...)], [raise_for_status()] and [json()], from the
      key and the prompt: the decoded body, or the exception raised *)
  groq_post : string -> string -> Result json
}.

(** [str(e)] *)
Definition py_str (e : exn) : string :=
  match e with
  | KeyError k => "'" ++ k ++ "'"
  | HTTPException code d => PyStr.dec code ++ ": " ++ d
  | IndexError m | TypeError m | AttributeError m | OverflowError m
  | GraphRecursionError m | OtherError m => m
  end.

(** A [for] loop whose body may raise, collecting its results. *)
Fixpoint mapM {A B : Type} (f : A -> Result B) (l : list A) : Result (list B) :=
  match l with
  | [] => Ok []
  | a :: l' =>
      let* b := f a in
      let* bs := mapM f l' in
      Ok (b :: bs)
  end.

(* ================================================================== *)
(** ** [GoogleCalendarService] *)

Module Calendar.
Import PyDatetime.

(** The dictionaries [get_events] and [create_event] return.  [start]
    and [end] are [None] when the provider sent neither ['dateTime'] nor
    ['date']. *)
Record Event : Type := mkEvent {
  id : string;
  title : string;
  start : option string;
  end_ : option string;
  status : string
}.

Definition dict_get {A : Type} (key : string) (v : option A) : Result A :=
  match v with
  | Some a => Ok a
  | None => Raise (KeyError key)
  end.

Definition get_default {A : Type} (v : option A) (default : A) : A :=
  match v with
  | Some a => a
  | None => default
  end.

Definition time_of (t : GTime) : option string :=
  match gt_dateTime t with
  | Some v => Some v
  | None => gt_date t
  end.

Definition _format_event (event : GEvent) : Result Event :=
  let* s := dict_get "start" (g_start event) in
  let* e := dict_get "end" (g_end event) in
  let* i := dict_get "id" (g_id event) in
  Ok {| id := i;
        title := get_default (g_summary event) "No Title";
        start := time_of s;
        end_ := time_of e;
        status := get_default (g_status event) "confirmed" |}.

Definition _get_mock_events (start_time end_time : datetime) : list Event :=
  let current := replace_hmsu start_time 9 0 0 0 in
  if weekday current <? 5 then
    (if hour current <=? 10 then
       [ {| id := "mock_1_" ++ fmt_Ymd current;
            title := "Team Standup";
            start := Some (isoformat (replace_hour current 10));
            end_ := Some (isoformat (replace_hm current 10 30));
            status := "confirmed" |} ]
     else [])
    ++
    (if hour current <=? 15 then
       [ {| id := "mock_2_" ++ fmt_Ymd current;
            title := "Client Review";
            start := Some (isoformat (replace_hour current 15));
            end_ := Some (isoformat (replace_hour current 16));
            status := "confirmed" |} ]
     else [])
  else [].

Definition get_events (w : World) (start_time end_time : datetime) : list Event :=
  match service w with
  | None => _get_mock_events start_time end_time
  | Some svc =>
      let attempt :=
        let* items :=
          events_list svc (isoformat start_time ++ "Z") (isoformat end_time ++ "Z") in
        mapM _format_event (get_default items []) in
      match attempt with
      | Ok events => events
      | Raise _ => _get_mock_events start_time end_time
      end
  end.

(** The dictionary [event] that [create_event] builds for the provider. *)
Definition event_body (title : string) (start_time end_time : datetime)
           (description : string) : GBody :=
  {| b_summary := title;
     b_description := description;
     b_start_dateTime := isoformat start_time;
     b_start_timeZone := "UTC";
     b_end_dateTime := isoformat end_time;
     b_end_timeZone := "UTC" |}.

Definition create_event (w : World) (title : string)
           (start_time end_time : datetime) (description : string) : Result Event :=
  match service w with
  | None =>
      let* ts := timestamp w start_time in
      Ok {| id := "mock_event_" ++ PyStr.dec ts;
            title := title;
            start := Some (isoformat start_time);
            end_ := Some (isoformat end_time);
            status := "confirmed" |}
  | Some svc =>
      let event := event_body title start_time end_time description in
      let attempt :=
        let* created_event := events_insert svc event in
        _format_event created_event in
      match attempt with
      | Ok ev => Ok ev
      | Raise e =>
          Raise (HTTPException 500 ("Failed to create event: " ++ py_str e))
      end
  end.

End Calendar.

(* ================================================================== *)
(** ** The agent: tools, nodes and graph *)

Module Agent.
Import PyDatetime.

Inductive Role : Type := Human | AI.

(** A LangChain message.  [tool_calls] is [None] where the class has no
    such attribute ([hasattr] is false). *)
Record Message : Type := mkMessage {
  role : Role;
  content : string;
  tool_calls : option (list string)
}.

Definition HumanMessage (c : string) : Message := mkMessage Human c None.

(** [AIMessage(content=c)]: no tool call is passed, the attribute keeps
    its default, the empty list. *)
Definition AIMessage (c : string) : Message := mkMessage AI c (Some []).

(** [AgentState], with the keys the code reads or writes; a key that is
    not in the dictionary is [None].  The same record serves for the
    dictionary a node returns. *)
Record AgentState : Type := mkState {
  messages : list Message;
  user_intent : option string;
  step : option string
}.

(** [messages[-1]] and [messages[-2]]. *)
Definition last_msg (ms : list Message) : option Message :=
  nth_error (rev ms) 0.

Definition last_but_one (ms : list Message) : option Message :=
  nth_error (rev ms) 1.

(** *** Tools *)

(** The "friday" branch reads the clock twice: once for the weekday,
    once for the sum. *)
Definition check_calendar_availability (w : World) (date_range : string) : string :=
  let body :=
    let text := PyStr.lower date_range in
    let* start_date :=
      if PyStr.str_in "tomorrow" text then add (now w) (days 1)
      else if PyStr.str_in "today" text then Ok (now w)
      else if PyStr.str_in "friday" text then
        let days_ahead := 4 - weekday (now w) in
        let days_ahead := if days_ahead <=? 0 then days_ahead + 7 else days_ahead in
        add (now_again w) (days days_ahead)
      else add (now w) (days 1) in
    let* end_date := add start_date (hours 12) in
    let events := Calendar.get_events w start_date end_date in
    match events with
    | [] =>
        Ok ("No existing events found for " ++ fmt_A_B_d start_date
            ++ ". You have full availability!")
    | _ =>
        let* event_list :=
          mapM (fun event =>
                  let* start_time := parse w (Calendar.start event) in
                  let* end_time := parse w (Calendar.end_ event) in
                  Ok ("- " ++ Calendar.title event ++ ": "
                      ++ fmt_I_M_p start_time ++ " - " ++ fmt_I_M_p end_time))
               events in
        Ok ("Existing events for " ++ fmt_A_B_d start_date ++ ":" ++ PyStr.nl
            ++ PyStr.join_lines event_list)
    end in
  match body with
  | Ok s => s
  | Raise e => "Error checking calendar: " ++ py_str e
  end.

(** The three hours [suggest_time_slots] proposes. *)
Definition slot_hours (preferences : string) : list Z :=
  if PyStr.str_in "afternoon" (PyStr.lower preferences) then [14; 15; 16]
  else if PyStr.str_in "morning" (PyStr.lower preferences) then [9; 10; 11]
  else [11; 14; 16].

(** [slots] in [suggest_time_slots]. *)
Definition slots_of (base_date : datetime) (preferences : string) : list datetime :=
  map (fun h => replace_hm base_date h 0) (slot_hours preferences).

(** [f"{i}. {slot.strftime(...)}" for i, slot in enumerate(slots, 1)]. *)
Fixpoint enumerate_slots (i : Z) (slots : list datetime) : list string :=
  match slots with
  | [] => []
  | slot :: rest =>
      (PyStr.dec i ++ ". " ++ fmt_slot slot) :: enumerate_slots (i + 1) rest
  end.

Definition suggest_time_slots (w : World) (preferences : string) : string :=
  let body :=
    let* base_date := add (now w) (days 1) in
    let slots := slots_of base_date preferences in
    Ok ("Here are some available time slots:" ++ PyStr.nl
        ++ PyStr.join_lines (enumerate_slots 1 slots)) in
  match body with
  | Ok s => s
  | Raise e => "Error suggesting slots: " ++ py_str e
  end.

Definition book_appointment (w : World) (details : string) : string :=
  let body :=
    let* tomorrow := add (now w) (days 1) in
    let start_time := replace_hmsu tomorrow 14 0 0 0 in
    let* end_time := add start_time (hours 1) in
    let* event :=
      Calendar.create_event w "Scheduled Meeting" start_time end_time
                            "Meeting booked through TailorTalk agent" in
    Ok ("âœ… Appointment booked successfully!" ++ PyStr.nl
        ++ "Title: " ++ Calendar.title event ++ PyStr.nl
        ++ "Time: " ++ fmt_slot start_time ++ " - " ++ fmt_I_M_p end_time
        ++ PyStr.nl ++ "Event ID: " ++ Calendar.id event) in
  match body with
  | Ok s => s
  | Raise e => "Error booking appointment: " ++ py_str e
  end.

(** *** Nodes *)

Definition should_continue (state : AgentState) : Result string :=
  match last_msg (messages state) with
  | None => Raise (IndexError "list index out of range")
  | Some last_message =>
      match tool_calls last_message with
      | Some (_ :: _) => Ok "continue"
      | _ => Ok "end"
      end
  end.

(** The intent detection of [call_model]. *)
Definition detect_intent (last_message : string) : string :=
  let text := PyStr.lower last_message in
  if PyStr.any_in ["schedule"; "book"; "appointment"; "meeting"] text then "booking"
  else if PyStr.any_in ["available"; "free"; "check"] text then "availability"
  else if PyStr.any_in ["confirm"; "yes"; "okay"] text then "confirmation"
  else "unknown".

(** The reply [call_model] generates. *)
Definition generate_response (intent last_message : string) : string :=
  if String.eqb intent "booking" then
    if PyStr.str_in "tomorrow afternoon" (PyStr.lower last_message) then
      "I'd be happy to help you schedule a call for tomorrow afternoon! Let me check what times are available."
    else if PyStr.str_in "friday" (PyStr.lower last_message) then
      "Let me check your availability for this Friday."
    else
      "I'll help you schedule that meeting. Could you tell me your preferred date and time?"
  else if String.eqb intent "availability" then
    "Let me check your calendar availability."
  else if String.eqb intent "confirmation" then
    "Great! Let me book that appointment for you."
  else
    "Hello! I'm here to help you schedule appointments. What would you like to book?".

Definition call_model (state : AgentState) : AgentState :=
  let last_message :=
    match last_msg (messages state) with
    | Some m => content m
    | None => ""
    end in
  let intent := detect_intent last_message in
  let response := generate_response intent last_message in
  {| messages := [AIMessage response];
     user_intent := Some intent;
     step := step state |}.

Definition call_tool (w : World) (state : AgentState) : AgentState :=
  let intent := Calendar.get_default (user_intent state) "" in
  let last_message :=
    match last_but_one (messages state) with
    | Some m => content m
    | None => ""
    end in
  let step0 := Calendar.get_default (step state) "" in
  if String.eqb intent "availability" then
    {| messages := [AIMessage (check_calendar_availability w last_message)];
       user_intent := user_intent state;
       step := step state |}
  else if String.eqb intent "booking" && negb (PyStr.str_in "suggest" step0) then
    {| messages := [AIMessage (suggest_time_slots w last_message)];
       user_intent := user_intent state;
       step := Some "suggested" |}
  else if String.eqb intent "confirmation" then
    {| messages := [AIMessage (book_appointment w last_message)];
       user_intent := user_intent state;
       step := step state |}
  else
    {| messages := [AIMessage "I'm ready to help with your scheduling needs!"];
       user_intent := user_intent state;
       step := step state |}.

(** *** The graph

    [messages] is declared with [operator.add]: what a node returns is
    appended.  The other keys keep the last value written. *)
Definition keep {A : Type} (old new : option A) : option A :=
  match new with
  | Some a => Some a
  | None => old
  end.

Definition reduce (old update : AgentState) : AgentState :=
  {| messages := (messages old ++ messages update)%list;
     user_intent := keep (user_intent old) (user_intent update);
     step := keep (step old) (step update) |}.

Inductive Node : Type := agent | action.

(** One run of the graph from the entry point: [agent], then the
    conditional edge, then [action] and back.  [limit] bounds the number
    of nodes run, as LangGraph's recursion limit does; the nodes run are
    recorded in order. *)
Fixpoint run (w : World) (limit : nat) (state : AgentState) (visited : list Node)
  : Result (AgentState * list Node) :=
  match limit with
  | O => Raise (GraphRecursionError "Recursion limit reached")
  | S limit' =>
      let state := reduce state (call_model state) in
      let visited := (visited ++ [agent])%list in
      let* edge := should_continue state in
      if String.eqb edge "continue" then
        match limit' with
        | O => Raise (GraphRecursionError "Recursion limit reached")
        | S limit'' =>
            run w limit'' (reduce state (call_tool w state))
                (visited ++ [action])%list
        end
      else Ok (state, visited)
  end.

Definition recursion_limit : nat := 25.

(** [app_graph.invoke(state)], with the nodes it ran. *)
Definition invoke_traced (w : World) (state : AgentState)
  : Result (AgentState * list Node) :=
  run w recursion_limit state [].

Definition invoke (w : World) (state : AgentState) : Result AgentState :=
  let* r := invoke_traced w state in Ok (fst r).

End Agent.

(* ================================================================== *)
(** ** The HTTP boundary *)

Module Api.

(** *** Python's operators on a decoded JSON value *)

(** ["choices" in result] *)
Definition contains_key (key : string) (result : json) : Result bool :=
  match result with
  | JObj fields => Ok (existsb (fun kv => String.eqb (fst kv) key) fields)
  | JArr items =>
      Ok (existsb (fun j => match j with
                            | JStr s => String.eqb s key
                            | _ => false
                            end) items)
  | JStr s => Ok (PyStr.str_in key s)
  | _ => Raise (TypeError "argument is not iterable")
  end.

(** The truth value of an object. *)
Definition truthy (j : json) : bool :=
  match j with
  | JNull => false
  | JBool b => b
  | JNum z => negb (z =? 0)
  | JStr s => negb (String.eqb s "")
  | JArr items => match items with [] => false | _ => true end
  | JObj fields => match fields with [] => false | _ => true end
  end.

(** [d[key]] in the dictionary [json.loads] builds: of two equal keys
    the later one wins. *)
Fixpoint lookup_last (key : string) (fields : list (string * json)) : option json :=
  match fields with
  | [] => None
  | (k, v) :: rest =>
      match lookup_last key rest with
      | Some v' => Some v'
      | None => if String.eqb k key then Some v else None
      end
  end.

(** [j[key]] for a string key *)
Definition getitem (j : json) (key : string) : Result json :=
  match j with
  | JObj fields =>
      match lookup_last key fields with
      | Some v => Ok v
      | None => Raise (KeyError key)
      end
  | JArr _ => Raise (TypeError "list indices must be integers or slices, not str")
  | JStr _ => Raise (TypeError "string indices must be integers")
  | _ => Raise (TypeError "object is not subscriptable")
  end.

(** [j[0]] *)
Definition getitem0 (j : json) : Result json :=
  match j with
  | JArr (x :: _) => Ok x
  | JArr [] => Raise (IndexError "list index out of range")
  | JStr (String c _) => Ok (JStr (String c EmptyString))
  | JStr EmptyString => Raise (IndexError "string index out of range")
  | JObj _ => Raise (KeyError "0")
  | _ => Raise (TypeError "object is not subscriptable")
  end.

(** [j.strip()] *)
Definition strip (j : json) : Result string :=
  match j with
  | JStr s => Ok (PyStr.strip s)
  | _ => Raise (AttributeError "object has no attribute 'strip'")
  end.

Definition key_not_found : string :=
  "GROQ API key not found. Please set GROQ_API_KEY in your .env file.".

Definition not_understood : string :=
  "Sorry, I couldn't understand the response from the AI model.".

Definition no_response : string :=
  "Sorry, I couldn't get a response from the AI model. Please try again later.".

Definition call_groq_ai (w : World) (prompt : string) : string :=
  match GROQ_API_KEY w with
  | None | Some EmptyString => key_not_found
  | Some api_key =>
      let body :=
        let* result := groq_post w api_key prompt in
        let* present := contains_key "choices" result in
        let* usable :=
          if present then
            let* choices := getitem result "choices" in Ok (truthy choices)
          else Ok false in
        if usable then
          let* choices := getitem result "choices" in
          let* first := getitem0 choices in
          let* message := getitem first "message" in
          let* text := getitem message "content" in
          strip text
        else Ok not_understood in
      match body with
      | Ok s => s
      | Raise _ => no_response
      end
  end.

Record ChatMessage : Type := mkChatMessage {
  message : string;
  session_id : string
}.

Record ChatResponse : Type := mkChatResponse {
  response : string;
  booking_confirmed : bool
}.

Definition keywords : list string :=
  ["schedule"; "book"; "appointment"; "meeting"; "available"; "free"; "check";
   "confirm"; "yes"; "okay"].

(** Which collaborator served the request: the graph, with the nodes it
    ran, or the completion service, with the prompt it was sent. *)
Inductive Served : Type :=
| ByGraph (nodes : list Agent.Node)
| ByCompletion (prompt : string).

(** [{"messages": [HumanMessage(content=message)]}] *)
Definition initial_state (message : string) : Agent.AgentState :=
  {| Agent.messages := [Agent.HumanMessage message];
     Agent.user_intent := None;
     Agent.step := None |}.

(** [chat_endpoint], threading the module-level dictionary [sessions]
    and recording which collaborator served the request.  An exception
    that leaves the graph leaves the endpoint. *)
Definition chat_endpoint_traced {V : Type} (w : World) (sessions : gmap string V)
           (chat_message : ChatMessage)
  : Result (ChatResponse * Served) * gmap string V :=
  let session_id := session_id chat_message in
  let message := message chat_message in
  if PyStr.any_in keywords (PyStr.lower message) then
    let state := initial_state message in
    (let* r := Agent.invoke_traced w state in
     let result := fst r in
     let ai_message :=
       match Agent.last_msg (Agent.messages result) with
       | Some m => Agent.content m
       | None => "Sorry, I couldn't process your request."
       end in
     let booking_confirmed :=
       match Agent.user_intent result with
       | Some i => String.eqb i "confirmation"
       | None => false
       end in
     Ok ({| response := ai_message; booking_confirmed := booking_confirmed |},
         ByGraph (snd r)),
     sessions)
  else
    let ai_response := call_groq_ai w message in
    (Ok ({| response := ai_response; booking_confirmed := false |},
         ByCompletion message),
     sessions).

(** [chat_endpoint]: the response alone. *)
Definition chat_endpoint {V : Type} (w : World) (sessions : gmap string V)
           (chat_message : ChatMessage) : Result ChatResponse :=
  let* r := fst (chat_endpoint_traced w sessions chat_message) in Ok (fst r).

End Api.

(* ================================================================== *)
(** ** Vocabulary of the statements *)

(** [u] contains the keyword [kw] in some letter case: a substring of [u]
    lowers to [kw]. *)
Definition contains_nocase (kw u : string) : Prop :=
  exists w, PyStr.lower w = kw /\ PyStr.str_in w u = true.

(** The keyword lists of [call_model], in the order it tests them. *)
Definition booking_words : list string :=
  ["schedule"; "book"; "appointment"; "meeting"].
Definition availability_words : list string := ["available"; "free"; "check"].
Definition confirmation_words : list string := ["confirm"; "yes"; "okay"].

(** The time [h:mi] on the calendar day of [d]. *)
Definition on_date (d : PyDatetime.datetime) (h mi : Z) : PyDatetime.datetime :=
  PyDatetime.mkdt (PyDatetime.year d) (PyDatetime.month d) (PyDatetime.day d)
                  h mi 0 0.

(** Minutes since midnight. *)
Definition minute_of_day (d : PyDatetime.datetime) : Z :=
  PyDatetime.hour d * 60 + PyDatetime.minute d.

(** A world to run the program in: Monday 1 January 2024, 12:34:56, in
    the UTC zone; no provider credentials, no completion key, a parser
    that accepts nothing and a network that is down. *)
Definition utc_timestamp (d : PyDatetime.datetime) : Result Z :=
  Ok ((PyDatetime.toordinal d - 719163) * 86400
      + PyDatetime.hour d * 3600 + PyDatetime.minute d * 60 + PyDatetime.second d).

Definition demo_world : World :=
  {| now := PyDatetime.mkdt 2024 1 1 12 34 56 789;
     now_again := PyDatetime.mkdt 2024 1 1 12 34 56 789;
     timestamp := utc_timestamp;
     service := None;
     parse := fun _ => Raise (OtherError "Unknown string format");
     GROQ_API_KEY := None;
     groq_post := fun _ _ => Raise (OtherError "Connection refused") |}.

(** The module-level [sessions = {}]. *)
Definition no_sessions : gmap string (list Agent.Message) := ∅.

(** A provider whose every call fails, and a world that has it. *)
Definition failing_provider : Provider :=
  {| events_list := fun _ _ => Raise (OtherError "HttpError 503");
     events_insert := fun _ => Raise (OtherError "HttpError 503") |}.

Definition outage_world : World :=
  {| now := PyDatetime.mkdt 2024 1 1 12 34 56 789;
     now_again := PyDatetime.mkdt 2024 1 1 12 34 56 789;
     timestamp := utc_timestamp;
     service := Some failing_provider;
     parse := fun _ => Raise (OtherError "Unknown string format");
     GROQ_API_KEY := Some "gsk_test";
     groq_post := fun _ _ => Raise (OtherError "Connection refused") |}.

(** [a < b] on naive datetimes: the fields, compared in order. *)
Definition instant (d : PyDatetime.datetime) : Z :=
  ((PyDatetime.toordinal d * 86400
    + PyDatetime.hour d * 3600 + PyDatetime.minute d * 60 + PyDatetime.second d)
   * 1000000) + PyDatetime.microsecond d.

Definition earlier (a b : PyDatetime.datetime) : bool := instant a <? instant b.

(** [f] holds of the [k] integers from [r] on. *)
Fixpoint all_from (k : nat) (r : Z) (f : Z -> bool) : bool :=
  match k with
  | O => true
  | S k' => f r && all_from k' (r + 1) f
  end.

(** [month_day] inverts the month table on the day [n] of the year. *)
Definition month_day_ok (leap : bool) (n : Z) : bool :=
  let '(m, d) := PyDatetime.month_day leap n in
  (PyDatetime.table PyDatetime.DAYS_BEFORE_MONTH m
   + (if (2 <? m) && leap then 1 else 0) + d =? n + 1)
  && (1 <=? m) && (m <=? 12) && (1 <=? d).

(** A line of the list [suggest_time_slots] prints. *)
Definition slot_line (i : Z) (date : PyDatetime.datetime) (clock : string) : string :=
  PyStr.dec i ++ ". " ++ PyDatetime.fmt_A_B_d date ++ " at " ++ clock.

Definition slots_text (date : PyDatetime.datetime) (c1 c2 c3 : string) : string :=
  "Here are some available time slots:" ++ PyStr.nl
  ++ PyStr.join_lines [slot_line 1 date c1; slot_line 2 date c2; slot_line 3 date c3].

(** An event resource has the three keys [_format_event] indexes. *)
Definition well_formed (g : GEvent) : bool :=
  match g_start g, g_end g, g_id g with
  | Some _, Some _, Some _ => true
  | _, _, _ => false
  end.

(** A provider that answers every listing with [items] and every insert
    with [created], and the world of [demo_world] with that provider. *)
Definition answering_provider (items : option (list GEvent)) (created : Result GEvent)
  : Provider :=
  {| events_list := fun _ _ => Ok items;
     events_insert := fun _ => created |}.

Definition world_with (svc : Provider) : World :=
  {| now := now demo_world;
     now_again := now_again demo_world;
     timestamp := utc_timestamp;
     service := Some svc;
     parse := parse demo_world;
     GROQ_API_KEY := None;
     groq_post := groq_post demo_world |}.

Definition timed (s : string) : GTime := mkGTime (Some s) None.

Definition lunch : GEvent :=
  mkGEvent (Some "ev1") (Some "Lunch") (Some (timed "2024-01-02T12:00:00Z"))
           (Some (timed "2024-01-02T13:00:00Z")) None.

Definition all_day_without_id : GEvent :=
  mkGEvent None None (Some (mkGTime None (Some "2024-01-02")))
           (Some (mkGTime None (Some "2024-01-03"))) (Some "tentative").

(** A world with a completion key whose service answers [reply]. *)
Definition completion_world (reply : Result json) : World :=
  {| now := now demo_world;
     now_again := now_again demo_world;
     timestamp := utc_timestamp;
     service := None;
     parse := parse demo_world;
     GROQ_API_KEY := Some "gsk_test";
     groq_post := fun _ _ => reply |}.

(** The body the completion service sends for the text [text]. *)
Definition completion_body (text : string) : json :=
  JObj [("id", JStr "chatcmpl-1");
        ("choices",
         JArr [JObj [("index", JNum 0);
                     ("message", JObj [("role", JStr "assistant");
                                       ("content", JStr text)])]])].

(** The time of day of a [datetime] object is in range. *)
Definition time_ok (dt : PyDatetime.datetime) : Prop :=
  0 <= PyDatetime.hour dt <= 23 /\ 0 <= PyDatetime.minute dt <= 59
  /\ 0 <= PyDatetime.second dt <= 59 /\ 0 <= PyDatetime.microsecond dt <= 999999.

(** The two halves of [check_calendar_availability]: the day the text
    asks about, and the report on that day. *)
Definition start_date_of (w : World) (date_range : string) : Result PyDatetime.datetime :=
  let text := PyStr.lower date_range in
  if PyStr.str_in "tomorrow" text then PyDatetime.add (now w) (PyDatetime.days 1)
  else if PyStr.str_in "today" text then Ok (now w)
  else if PyStr.str_in "friday" text then
    let days_ahead := 4 - PyDatetime.weekday (now w) in
    let days_ahead := if days_ahead <=? 0 then days_ahead + 7 else days_ahead in
    PyDatetime.add (now_again w) (PyDatetime.days days_ahead)
  else PyDatetime.add (now w) (PyDatetime.days 1).

Definition availability_report (w : World) (start_date : PyDatetime.datetime)
  : Result string :=
  let* end_date := PyDatetime.add start_date (PyDatetime.hours 12) in
  let events := Calendar.get_events w start_date end_date in
  match events with
  | [] =>
      Ok ("No existing events found for " ++ PyDatetime.fmt_A_B_d start_date
          ++ ". You have full availability!")
  | _ =>
      let* event_list :=
        mapM (fun event =>
                let* start_time := parse w (Calendar.start event) in
                let* end_time := parse w (Calendar.end_ event) in
                Ok ("- " ++ Calendar.title event ++ ": "
                    ++ PyDatetime.fmt_I_M_p start_time ++ " - "
                    ++ PyDatetime.fmt_I_M_p end_time))
             events in
      Ok ("Existing events for " ++ PyDatetime.fmt_A_B_d start_date ++ ":" ++ PyStr.nl
          ++ PyStr.join_lines event_list)
  end.

(** A parser that knows the four times of the synthetic events of
    Monday 1 January 2024, and the world of [demo_world] with it. *)
Definition parse_demo_day (s : option string) : Result PyDatetime.datetime :=
  match s with
  | Some "2024-01-01T10:00:00" => Ok (PyDatetime.mkdt 2024 1 1 10 0 0 0)
  | Some "2024-01-01T10:30:00" => Ok (PyDatetime.mkdt 2024 1 1 10 30 0 0)
  | Some "2024-01-01T15:00:00" => Ok (PyDatetime.mkdt 2024 1 1 15 0 0 0)
  | Some "2024-01-01T16:00:00" => Ok (PyDatetime.mkdt 2024 1 1 16 0 0 0)
  | _ => Raise (OtherError "Unknown string format")
  end.

Definition parsing_world : World :=
  {| now := now demo_world;
     now_again := now_again demo_world;
     timestamp := utc_timestamp;
     service := None;
     parse := parse_demo_day;
     GROQ_API_KEY := None;
     groq_post := groq_post demo_world |}.

(** The world of [demo_world] with the clock at [t]. *)
Definition world_at (t : PyDatetime.datetime) : World :=
  {| now := t;
     now_again := t;
     timestamp := utc_timestamp;
     service := None;
     parse := parse demo_world;
     GROQ_API_KEY := None;
     groq_post := groq_post demo_world |}.

(* ================================================================== *)
(** ** The Streamlit client ([streamlit_app.py])

    One run of the script, from the session state and the widgets to the
    session state it leaves.  The HTML the script writes is not
    modelled; the calls to [st.success], [st.balloons] and [st.error]
    are recorded in order. *)

Module Client.

(** An entry of [st.session_state.messages].  The content of a bot entry
    is whatever the body had under ["response"]. *)
Record Turn : Type := mkTurn {
  role : string;
  content : json
}.

(** [st.session_state]; a key that was never set is [None]. *)
Record SessionState : Type := mkSession {
  session_id : option string;
  messages : option (list Turn);
  api_url : option string
}.

(** What the widgets return in this run: the text of the "API URL" box
    when the user changed it, the two buttons and the text of the form. *)
Record Widgets : Type := mkWidgets {
  api_url_box : option string;
  reset_button : bool;
  submit_button : bool;
  user_input : string
}.

(** What [requests.post] does: a response, with its status code and what
    [response.json()] gives, or an exception. *)
Inductive PostError : Type :=
| ConnectionError (msg : string)
| OtherPostError (e : exn).

Inductive Outcome : Type :=
| Responded (status_code : Z) (json_body : Result json)
| Failed (e : PostError).

(** The outside of the script: the [n]-th value of [uuid.uuid4()] in a
    run, and [requests.post] from the URL, the message and the session
    id. *)
Record Env : Type := mkEnv {
  uuid4 : nat -> string;
  post : string -> string -> string -> Outcome
}.

Inductive Notice : Type :=
| success (text : string)
| balloons
| error (text : string).

Record Run : Type := mkRun {
  state : SessionState;
  notices : list Notice;
  rerun : bool
}.

Definition user_turn (text : string) : Turn := mkTurn "user" (JStr text).
Definition bot_turn (c : json) : Turn := mkTurn "bot" c.

(** [result.get("booking_confirmed")] on a dictionary. *)
Definition dict_get_or_none (fields : list (string * json)) (key : string) : json :=
  match Api.lookup_last key fields with
  | Some v => v
  | None => JNull
  end.

(** The [except Exception as e] handler: the bot entry and the notices. *)
Definition unexpected (e : exn) : Turn * list Notice :=
  (bot_turn (JStr ("Sorry, I encountered an unexpected error: " ++ py_str e)),
   [error ("Error: " ++ py_str e)]).

(** The [try] statement of the script: the bot entry appended and the
    notices shown. *)
Definition answer (outcome : Outcome) : Turn * list Notice :=
  match outcome with
  | Responded status_code json_body =>
      if status_code =? 200 then
        match (let* result := json_body in
               let* bot_response := Api.getitem result "response" in
               Ok (result, bot_response)) with
        | Ok (result, bot_response) =>
            (bot_turn bot_response,
             match result with
             | JObj fields =>
                 if Api.truthy (dict_get_or_none fields "booking_confirmed")
                 then [success "🎉 Appointment booked successfully!"; balloons]
                 else []
             | _ => []
             end)
        | Raise e => unexpected e
        end
      else
        (bot_turn (JStr "Sorry, I encountered an error. Please try again."),
         [error ("API Error: " ++ PyStr.dec status_code)])
  | Failed (ConnectionError _) =>
      (bot_turn
         (JStr "I'm having trouble connecting to my backend. Please make sure the API server is running on the configured URL."),
       [error "❌ Cannot connect to the API. Please check if the backend is running."])
  | Failed (OtherPostError e) => unexpected e
  end.

Definition script (env : Env) (widgets : Widgets) (st0 : SessionState) : Run :=
  (* Initialize session state *)
  let '(sid, n) :=
    match session_id st0 with
    | Some s => (s, 0%nat)
    | None => (uuid4 env 0%nat, 1%nat)
    end in
  let msgs := Calendar.get_default (messages st0) [] in
  let url0 := Calendar.get_default (api_url st0) "http://localhost:8000" in
  (* Sidebar *)
  let url := Calendar.get_default (api_url_box widgets) url0 in
  if reset_button widgets then
    {| state := mkSession (Some (uuid4 env n)) (Some []) (Some url);
       notices := [];
       rerun := true |}
  else if submit_button widgets && negb (String.eqb (user_input widgets) "") then
    (* Process user input *)
    let msgs := (msgs ++ [user_turn (user_input widgets)])%list in
    let '(bot, shown) :=
      answer (post env (url ++ "/chat") (user_input widgets) sid) in
    {| state := mkSession (Some sid) (Some (msgs ++ [bot])%list) (Some url);
       notices := shown;
       rerun := true |}
  else
    {| state := mkSession (Some sid) (Some msgs) (Some url);
       notices := [];
       rerun := false |}.

End Client.

(** The body FastAPI sends for a [ChatResponse], and [requests.post]
    against a server that runs [chat_endpoint] in the world [w]: status
    200 with that body; the status and detail of an [HTTPException];
    status 500 with a body that is not JSON for any other exception. *)
Definition response_json (r : Api.ChatResponse) : json :=
  JObj [("response", JStr (Api.response r));
        ("booking_confirmed", JBool (Api.booking_confirmed r))].

Definition served_by {V : Type} (w : World) (sessions : gmap string V)
           (url message session_id : string) : Client.Outcome :=
  match Api.chat_endpoint w sessions (Api.mkChatMessage message session_id) with
  | Ok r => Client.Responded 200 (Ok (response_json r))
  | Raise (HTTPException status_code detail) =>
      Client.Responded status_code (Ok (JObj [("detail", JStr detail)]))
  | Raise _ =>
      Client.Responded 500 (Raise (OtherError "Expecting value: line 1 column 1 (char 0)"))
  end.

(** A browser session that has run the script before, and the widgets
    of a run in which [text] is sent. *)
Definition open_session : Client.SessionState :=
  Client.mkSession (Some "5f0c") (Some []) (Some "http://localhost:8000").

Definition sending (text : string) : Client.Widgets :=
  Client.mkWidgets None false true text.

Definition uuids (n : nat) : string := "uuid-" ++ PyStr.dec (Z.of_nat n).

(** A world with a completion key whose service answers each prompt with
    a text built from the prompt. *)
Definition echo_world : World :=
  {| now := now demo_world;
     now_again := now_again demo_world;
     timestamp := utc_timestamp;
     service := None;
     parse := parse demo_world;
     GROQ_API_KEY := Some "gsk_test";
     groq_post := fun _ prompt => Ok (completion_body (" You asked: " ++ prompt ++ " ")) |}.

(** The world of [demo_world] with the clock reading [first] and then,
    on a second reading in the same call, [second]. *)
Definition world_across (first second : PyDatetime.datetime) : World :=
  {| now := first;
     now_again := second;
     timestamp := utc_timestamp;
     service := None;
     parse := parse demo_world;
     GROQ_API_KEY := None;
     groq_post := groq_post demo_world |}.

(* ================================================================== *)
(** * Properties *)

Import PyDatetime.

(** ** Strings: [lower] and [in] *)

Lemma prefix_lower (a b : string) :
  String.prefix a b = true ->
  String.prefix (PyStr.lower a) (PyStr.lower b) = true.
Proof.
  revert a; induction b as [|c' b IH]; intros a H.
  - destruct a; [reflexivity | discriminate].
  - destruct a as [|c a]; [reflexivity|]. simpl in *.
    destruct (Ascii.ascii_dec c c') as [->|Hne]; [|discriminate].
    destruct (Ascii.ascii_dec (PyStr.lower_ascii c') (PyStr.lower_ascii c'));
      [auto | congruence].
Qed.

Lemma str_in_lower (a b : string) :
  PyStr.str_in a b = true ->
  PyStr.str_in (PyStr.lower a) (PyStr.lower b) = true.
Proof.
  induction b as [|c b IH]; intros H; cbn [PyStr.str_in PyStr.lower] in *;
    apply orb_true_iff in H as [H|H].
  - apply prefix_lower in H. cbn [PyStr.lower] in H. now rewrite H.
  - discriminate.
  - apply prefix_lower in H. cbn [PyStr.lower] in H. now rewrite H.
  - rewrite (IH H). apply orb_true_r.
Qed.

(** A prefix of the lowered text is the lowering of a prefix. *)
Lemma prefix_of_lower (k u : string) :
  String.prefix k (PyStr.lower u) = true ->
  exists w, PyStr.lower w = k /\ String.prefix w u = true.
Proof.
  revert k; induction u as [|c' u IH]; intros k H.
  - destruct k; [|discriminate]. exists EmptyString. split; reflexivity.
  - destruct k as [|c k].
    + exists EmptyString. split; reflexivity.
    + simpl in H.
      destruct (Ascii.ascii_dec c (PyStr.lower_ascii c')) as [->|Hne]; [|discriminate].
      destruct (IH k H) as (w & Hw & Hp).
      exists (String c' w). split; simpl.
      * now rewrite Hw.
      * destruct (Ascii.ascii_dec c' c'); [assumption | congruence].
Qed.

Lemma str_in_of_lower (k u : string) :
  PyStr.str_in k (PyStr.lower u) = true ->
  exists w, PyStr.lower w = k /\ PyStr.str_in w u = true.
Proof.
  induction u as [|c u IH]; intros H; cbn [PyStr.str_in PyStr.lower] in H;
    apply orb_true_iff in H as [H|H].
  - destruct (prefix_of_lower k EmptyString H) as (w & Hw & Hp).
    exists w. split; [assumption|]. cbn [PyStr.str_in]. now rewrite Hp.
  - discriminate.
  - destruct (prefix_of_lower k (String c u) H) as (w & Hw & Hp).
    exists w. split; [assumption|]. cbn [PyStr.str_in]. now rewrite Hp.
  - destruct (IH H) as (w & Hw & Hin).
    exists w. split; [assumption|]. cbn [PyStr.str_in]. rewrite Hin.
    apply orb_true_r.
Qed.

Lemma contains_nocase_iff (kw u : string) :
  contains_nocase kw u <-> PyStr.str_in kw (PyStr.lower u) = true.
Proof.
  split.
  - intros (w & <- & H). now apply str_in_lower.
  - apply str_in_of_lower.
Qed.

Lemma any_in_true (words : list string) (u : string) :
  PyStr.any_in words (PyStr.lower u) = true <->
  exists kw, In kw words /\ contains_nocase kw u.
Proof.
  unfold PyStr.any_in. rewrite existsb_exists.
  split; intros (kw & Hin & H); exists kw; split; auto;
    now apply contains_nocase_iff.
Qed.

Lemma any_in_false (words : list string) (u : string) :
  (forall kw, In kw words -> ~ contains_nocase kw u) ->
  PyStr.any_in words (PyStr.lower u) = false.
Proof.
  intros H. destruct (PyStr.any_in words (PyStr.lower u)) eqn:E; [|reflexivity].
  apply any_in_true in E as (kw & Hin & Hc). now destruct (H kw Hin).
Qed.

Lemma any_in_incl (ws ws' : list string) (text : string) :
  incl ws ws' -> PyStr.any_in ws text = true -> PyStr.any_in ws' text = true.
Proof.
  unfold PyStr.any_in. rewrite !existsb_exists.
  intros Hincl (kw & Hin & H). exists kw. split; [now apply Hincl | assumption].
Qed.

(** ** The graph stops after its first node *)

Lemma last_msg_snoc (ms : list Agent.Message) (m : Agent.Message) :
  Agent.last_msg (ms ++ [m])%list = Some m.
Proof. unfold Agent.last_msg. now rewrite rev_app_distr. Qed.

(** Whatever the state, the message [call_model] appends carries no tool
    call, so the conditional edge answers ["end"]. *)
Lemma should_continue_after_agent (state : Agent.AgentState) :
  Agent.should_continue (Agent.reduce state (Agent.call_model state)) = Ok "end".
Proof.
  unfold Agent.should_continue, Agent.reduce, Agent.call_model.
  cbn [Agent.messages]. now rewrite last_msg_snoc.
Qed.

Lemma run_stops_after_agent (w : World) (limit : nat) (state : Agent.AgentState)
      (visited : list Agent.Node) :
  Agent.run w (S limit) state visited
  = Ok (Agent.reduce state (Agent.call_model state),
        (visited ++ [Agent.agent])%list).
Proof.
  cbn [Agent.run]. now rewrite should_continue_after_agent.
Qed.

Lemma invoke_traced_eq (w : World) (state : Agent.AgentState) :
  Agent.invoke_traced w state
  = Ok (Agent.reduce state (Agent.call_model state), [Agent.agent]).
Proof. unfold Agent.invoke_traced, Agent.recursion_limit. apply run_stops_after_agent. Qed.

Lemma call_model_initial (message : string) :
  Agent.reduce (Api.initial_state message) (Agent.call_model (Api.initial_state message))
  = {| Agent.messages :=
         [Agent.HumanMessage message;
          Agent.AIMessage
            (Agent.generate_response (Agent.detect_intent message) message)];
       Agent.user_intent := Some (Agent.detect_intent message);
       Agent.step := None |}.
Proof. reflexivity. Qed.

(** The endpoint on a message with a keyword, and on one without. *)
Lemma chat_endpoint_graph {V : Type} (w : World) (sessions : gmap string V)
      (cm : Api.ChatMessage) :
  PyStr.any_in Api.keywords (PyStr.lower (Api.message cm)) = true ->
  Api.chat_endpoint_traced w sessions cm
  = (Ok ({| Api.response :=
              Agent.generate_response (Agent.detect_intent (Api.message cm))
                                      (Api.message cm);
            Api.booking_confirmed :=
              String.eqb (Agent.detect_intent (Api.message cm)) "confirmation" |},
         Api.ByGraph [Agent.agent]),
     sessions).
Proof.
  intros H. unfold Api.chat_endpoint_traced. rewrite H, invoke_traced_eq.
  cbn [bind fst snd]. now rewrite call_model_initial.
Qed.

Lemma chat_endpoint_completion {V : Type} (w : World) (sessions : gmap string V)
      (cm : Api.ChatMessage) :
  PyStr.any_in Api.keywords (PyStr.lower (Api.message cm)) = false ->
  Api.chat_endpoint_traced w sessions cm
  = (Ok ({| Api.response := Api.call_groq_ai w (Api.message cm);
            Api.booking_confirmed := false |},
         Api.ByCompletion (Api.message cm)),
     sessions).
Proof. intros H. unfold Api.chat_endpoint_traced. now rewrite H. Qed.

(** ** Intent detection *)

Lemma detect_intent_cases (u : string) :
  Agent.detect_intent u =
  if PyStr.any_in booking_words (PyStr.lower u) then "booking"
  else if PyStr.any_in availability_words (PyStr.lower u) then "availability"
  else if PyStr.any_in confirmation_words (PyStr.lower u) then "confirmation"
  else "unknown".
Proof. reflexivity. Qed.

(** C5. The intent detection of [call_model] tests substrings of the
    lowered utterance, so letter case is ignored, and the first list that
    matches wins, in the order booking, availability, confirmation:
    an utterance with a booking word is [booking]; one with an
    availability word and no booking word is [availability]; one with a
    confirmation word and neither of the former is [confirmation]; an
    utterance with none of the words is [unknown]. *)
Theorem detect_intent_first_match (u : string) :
  ((exists kw, In kw booking_words /\ contains_nocase kw u) ->
   Agent.detect_intent u = "booking")
  /\ ((exists kw, In kw availability_words /\ contains_nocase kw u) ->
      (forall b, In b booking_words -> ~ contains_nocase b u) ->
      Agent.detect_intent u = "availability")
  /\ ((exists kw, In kw confirmation_words /\ contains_nocase kw u) ->
      (forall b, In b booking_words -> ~ contains_nocase b u) ->
      (forall a, In a availability_words -> ~ contains_nocase a u) ->
      Agent.detect_intent u = "confirmation")
  /\ ((forall b, In b booking_words -> ~ contains_nocase b u) ->
      (forall a, In a availability_words -> ~ contains_nocase a u) ->
      (forall c, In c confirmation_words -> ~ contains_nocase c u) ->
      Agent.detect_intent u = "unknown").
Proof.
  rewrite detect_intent_cases. repeat split.
  - intros H. apply any_in_true in H. now rewrite H.
  - intros H Hb. apply any_in_true in H. apply any_in_false in Hb.
    now rewrite Hb, H.
  - intros H Hb Ha. apply any_in_true in H.
    apply any_in_false in Hb. apply any_in_false in Ha.
    now rewrite Hb, Ha, H.
  - intros Hb Ha Hc.
    apply any_in_false in Hb. apply any_in_false in Ha. apply any_in_false in Hc.
    now rewrite Hb, Ha, Hc.
Qed.

Ltac no_keyword :=
  let H := fresh in
  intros ? H; unfold Api.keywords in H; cbn in H;
  repeat (destruct H as [<- | H];
          [ rewrite contains_nocase_iff; vm_compute; discriminate | ]);
  destruct H.

Lemma detect_intent_first_match_witness :
  Agent.detect_intent "Please BOOK a room" = "booking"
  /\ Agent.detect_intent "Are you Free on Monday?" = "availability"
  /\ Agent.detect_intent "OKAY then" = "confirmation"
  /\ Agent.detect_intent "what's the weather" = "unknown".
Proof.
  split; [|split; [|split]].
  - apply (proj1 (detect_intent_first_match "Please BOOK a room")).
    exists "book". split; [cbn; auto|]. exists "BOOK". split; reflexivity.
  - apply (proj1 (proj2 (detect_intent_first_match "Are you Free on Monday?"))).
    + exists "free". split; [cbn; auto|]. exists "Free". split; reflexivity.
    + no_keyword.
  - apply (proj1 (proj2 (proj2 (detect_intent_first_match "OKAY then")))).
    + exists "okay". split; [cbn; auto|]. exists "OKAY". split; reflexivity.
    + no_keyword.
    + no_keyword.
  - apply (proj2 (proj2 (proj2 (detect_intent_first_match "what's the weather"))));
      no_keyword.
Defined.

Lemma availability_has_keyword (u : string) :
  Agent.detect_intent u = "availability" ->
  PyStr.any_in Api.keywords (PyStr.lower u) = true.
Proof.
  rewrite detect_intent_cases.
  destruct (PyStr.any_in booking_words (PyStr.lower u)); [discriminate|].
  destruct (PyStr.any_in availability_words (PyStr.lower u)) eqn:Ha.
  - intros _. apply (any_in_incl availability_words); [|assumption].
    intros x Hx. cbn in *. tauto.
  - destruct (PyStr.any_in confirmation_words (PyStr.lower u)); discriminate.
Qed.

(** ** The endpoint *)

(** C1. On the message "yes, confirm it" the endpoint runs the graph, the
    graph runs the node [agent] and stops: the node [action], the only
    caller of [book_appointment], is not run.  The reply is the fixed
    acknowledgement of [call_model], which names no event, and
    [booking_confirmed] is true all the same. *)
Theorem confirm_reply_has_no_event {V : Type} (w : World) (sessions : gmap string V)
        (sid : string) :
  Api.chat_endpoint_traced w sessions (Api.mkChatMessage "yes, confirm it" sid)
  = (Ok ({| Api.response := "Great! Let me book that appointment for you.";
            Api.booking_confirmed := true |},
         Api.ByGraph [Agent.agent]),
     sessions)
  /\ PyStr.str_in "Event ID" "Great! Let me book that appointment for you." = false
  /\ PyStr.str_in "mock_event_" "Great! Let me book that appointment for you." = false.
Proof.
  split; [|split; reflexivity].
  rewrite chat_endpoint_graph; reflexivity.
Qed.

(** C2. When the intent detected is [availability], the message
    [call_model] appends carries no tool call: the conditional edge
    answers ["end"], the graph stops after [agent] and
    [check_calendar_availability] is not called.  The reply is the
    acknowledgement alone. *)
Theorem availability_skips_action {V : Type} (w : World) (sessions : gmap string V)
        (cm : Api.ChatMessage) :
  Agent.detect_intent (Api.message cm) = "availability" ->
  let state := Api.initial_state (Api.message cm) in
  Agent.should_continue (Agent.reduce state (Agent.call_model state)) = Ok "end"
  /\ Agent.invoke_traced w state
     = Ok (Agent.reduce state (Agent.call_model state), [Agent.agent])
  /\ Api.chat_endpoint_traced w sessions cm
     = (Ok ({| Api.response := "Let me check your calendar availability.";
               Api.booking_confirmed := false |},
            Api.ByGraph [Agent.agent]),
        sessions).
Proof.
  intros Hi state. split; [apply should_continue_after_agent|].
  split; [apply invoke_traced_eq|].
  rewrite chat_endpoint_graph by now apply availability_has_keyword.
  now rewrite Hi.
Qed.

Lemma availability_skips_action_witness :
  Api.chat_endpoint_traced demo_world no_sessions
    (Api.mkChatMessage "Check my availability for tomorrow" "s1")
  = (Ok ({| Api.response := "Let me check your calendar availability.";
            Api.booking_confirmed := false |},
         Api.ByGraph [Agent.agent]),
     no_sessions).
Proof.
  apply (availability_skips_action demo_world no_sessions
           (Api.mkChatMessage "Check my availability for tomorrow" "s1")).
  reflexivity.
Defined.

Lemma lookup_last_present (key : string) (fields : list (string * json)) (v : json) :
  Api.lookup_last key fields = Some v ->
  existsb (fun kv => String.eqb (fst kv) key) fields = true.
Proof.
  revert v.
  induction fields as [|[k x] fields IH]; intros v;
    cbn [Api.lookup_last existsb fst]; [discriminate|].
  destruct (Api.lookup_last key fields) as [v'|].
  - intros _. rewrite (IH v' eq_refl). apply orb_true_r.
  - destruct (String.eqb k key); [reflexivity | discriminate].
Qed.

Lemma lookup_last_absent (key : string) (fields : list (string * json)) :
  Api.lookup_last key fields = None ->
  existsb (fun kv => String.eqb (fst kv) key) fields = false.
Proof.
  induction fields as [|[k x] fields IH]; cbn [Api.lookup_last existsb fst];
    [reflexivity|].
  destruct (Api.lookup_last key fields) as [v'|]; [discriminate|].
  destruct (String.eqb k key); [discriminate|]. intros _. now rewrite IH.
Qed.

(** With a key, a body that holds a text at
    [result["choices"][0]["message"]["content"]] gives that text,
    stripped. *)
Lemma call_groq_ai_text (w : World) (prompt key text : string)
      (fields choice message : list (string * json)) (others : list json) :
  GROQ_API_KEY w = Some key -> key <> "" ->
  groq_post w key prompt = Ok (JObj fields) ->
  Api.lookup_last "choices" fields = Some (JArr (JObj choice :: others)) ->
  Api.lookup_last "message" choice = Some (JObj message) ->
  Api.lookup_last "content" message = Some (JStr text) ->
  Api.call_groq_ai w prompt = PyStr.strip text.
Proof.
  intros Hk Hne Hp Hc Hm Ht. unfold Api.call_groq_ai. rewrite Hk.
  destruct key; [congruence|]. rewrite Hp. cbn [bind Api.contains_key].
  rewrite (lookup_last_present _ _ _ Hc). cbn [bind Api.getitem].
  rewrite Hc. cbn [bind Api.truthy Api.getitem0 Api.getitem].
  rewrite Hm. cbn [bind Api.getitem]. rewrite Ht. reflexivity.
Qed.

(** C4. A request goes to the graph exactly when its message contains, in
    any letter case, one of the ten keywords, and to the completion
    service otherwise.  In the first case [booking_confirmed] is true
    exactly when the intent the graph leaves in its state is
    [confirmation]; in the second the message is the prompt, unchanged,
    [booking_confirmed] is false, and the text the completion service
    returns for that prompt comes back, stripped, as the response.  The
    endpoint always answers. *)
Theorem chat_endpoint_routing {V : Type} (w : World) (sessions : gmap string V)
        (cm : Api.ChatMessage) :
  exists (resp : Api.ChatResponse) (served : Api.Served),
    Api.chat_endpoint_traced w sessions cm = (Ok (resp, served), sessions)
    /\ ((exists nodes, served = Api.ByGraph nodes) <->
        (exists kw, In kw Api.keywords /\ contains_nocase kw (Api.message cm)))
    /\ ((exists nodes, served = Api.ByGraph nodes) ->
        exists (final : Agent.AgentState) (intent : string),
          Agent.invoke w (Api.initial_state (Api.message cm)) = Ok final
          /\ Agent.user_intent final = Some intent
          /\ (Api.booking_confirmed resp = true <-> intent = "confirmation"))
    /\ ((forall nodes, served <> Api.ByGraph nodes) ->
        served = Api.ByCompletion (Api.message cm)
        /\ Api.response resp = Api.call_groq_ai w (Api.message cm)
        /\ Api.booking_confirmed resp = false
        /\ (forall (key text : string) (fields choice message : list (string * json))
                   (others : list json),
               GROQ_API_KEY w = Some key -> key <> "" ->
               groq_post w key (Api.message cm) = Ok (JObj fields) ->
               Api.lookup_last "choices" fields = Some (JArr (JObj choice :: others)) ->
               Api.lookup_last "message" choice = Some (JObj message) ->
               Api.lookup_last "content" message = Some (JStr text) ->
               Api.response resp = PyStr.strip text)).
Proof.
  destruct (PyStr.any_in Api.keywords (PyStr.lower (Api.message cm))) eqn:E.
  - eexists. eexists. split; [now apply chat_endpoint_graph|].
    split; [|split].
    + split; [intros _; now apply any_in_true | intros _; now eexists].
    + intros _. eexists. eexists. split; [|split].
      * unfold Agent.invoke. rewrite invoke_traced_eq. cbn [bind fst].
        now rewrite call_model_initial.
      * reflexivity.
      * cbn [Api.booking_confirmed]. apply String.eqb_eq.
    + intros H. now destruct (H [Agent.agent]).
  - eexists. eexists. split; [now apply chat_endpoint_completion|].
    split; [|split].
    + split; [intros (nodes & H); discriminate|].
      intros H. apply any_in_true in H. congruence.
    + intros (nodes & H). discriminate.
    + intros _. split; [reflexivity|]. split; [reflexivity|].
      split; [reflexivity|].
      intros key text fields choice message others Hk Hne Hp Hc Hm Ht.
      cbn [Api.response]. now apply (call_groq_ai_text w _ key text fields choice
                                       message others).
Qed.

Lemma chat_endpoint_routing_witness :
  (exists resp served,
      Api.chat_endpoint_traced demo_world no_sessions
        (Api.mkChatMessage "OKAY, book it" "s1") = (Ok (resp, served), no_sessions)
      /\ served = Api.ByGraph [Agent.agent]
      /\ Api.booking_confirmed resp = false)
  /\ (exists resp,
        Api.chat_endpoint_traced echo_world no_sessions
          (Api.mkChatMessage "what's the weather" "s2")
        = (Ok (resp, Api.ByCompletion "what's the weather"), no_sessions)
        /\ Api.response resp = "You asked: what's the weather"
        /\ Api.booking_confirmed resp = false).
Proof.
  split.
  - destruct (chat_endpoint_routing demo_world no_sessions
                (Api.mkChatMessage "OKAY, book it" "s1"))
      as (resp & served & Heq & _).
    exists resp, served. split; [exact Heq|].
    injection Heq as <- <-. split; reflexivity.
  - destruct (chat_endpoint_routing echo_world no_sessions
                (Api.mkChatMessage "what's the weather" "s2"))
      as (resp & served & Heq & Hiff & _ & Hc).
    assert (Hno : forall kw, In kw Api.keywords ->
                             ~ contains_nocase kw "what's the weather")
      by no_keyword.
    assert (Hng : forall nodes, served <> Api.ByGraph nodes).
    { intros nodes E. destruct (proj1 Hiff (ex_intro _ nodes E)) as (kw & Hin & Hk).
      exact (Hno kw Hin Hk). }
    destruct (Hc Hng) as (Hs & _ & Hb & Htext).
    exists resp. rewrite Heq, Hs. split; [reflexivity|]. split; [|exact Hb].
    apply (Htext "gsk_test" " You asked: what's the weather "
             [("id", JStr "chatcmpl-1");
              ("choices",
               JArr [JObj [("index", JNum 0);
                           ("message",
                            JObj [("role", JStr "assistant");
                                  ("content",
                                   JStr " You asked: what's the weather ")])]])]
             [("index", JNum 0);
              ("message", JObj [("role", JStr "assistant");
                                ("content", JStr " You asked: what's the weather ")])]
             [("role", JStr "assistant");
              ("content", JStr " You asked: what's the weather ")]
             []);
      first [reflexivity | discriminate].
Defined.

(** C9. The answer does not depend on [session_id], nor on what the
    dictionary [sessions] holds: two requests with the same message get
    the same response from the same collaborator, and the dictionary
    comes back as it was. *)
Theorem chat_endpoint_ignores_session {V1 V2 : Type} (w : World)
        (sessions1 : gmap string V1) (sessions2 : gmap string V2)
        (message sid1 sid2 : string) :
  fst (Api.chat_endpoint_traced w sessions1 (Api.mkChatMessage message sid1))
  = fst (Api.chat_endpoint_traced w sessions2 (Api.mkChatMessage message sid2))
  /\ Api.chat_endpoint w sessions1 (Api.mkChatMessage message sid1)
     = Api.chat_endpoint w sessions2 (Api.mkChatMessage message sid2)
  /\ snd (Api.chat_endpoint_traced w sessions1 (Api.mkChatMessage message sid1))
     = sessions1.
Proof.
  unfold Api.chat_endpoint, Api.chat_endpoint_traced. cbn [Api.message].
  destruct (PyStr.any_in Api.keywords (PyStr.lower message)); auto.
Qed.

(** ** The calendar gateway *)

Lemma mock_events_eq (start_time end_time : datetime) :
  Calendar._get_mock_events start_time end_time
  = if weekday start_time <? 5 then
      [ Calendar.mkEvent ("mock_1_" ++ fmt_Ymd start_time) "Team Standup"
          (Some (isoformat (on_date start_time 10 0)))
          (Some (isoformat (on_date start_time 10 30))) "confirmed";
        Calendar.mkEvent ("mock_2_" ++ fmt_Ymd start_time) "Client Review"
          (Some (isoformat (on_date start_time 15 0)))
          (Some (isoformat (on_date start_time 16 0))) "confirmed" ]
    else [].
Proof. reflexivity. Qed.

(** The hours of the synthetic events, on Monday 1 January 2024: they
    start at 10:00 and 15:00 and end at 10:30 and 16:00; the morning entry
    is a half hour before noon, not the half hour from 09:00 to 09:30. *)
Lemma morning_entry_starts_at_ten :
  weekday (mkdt 2024 1 1 8 0 0 0) = 0
  /\ map Calendar.start
         (Calendar.get_events demo_world (mkdt 2024 1 1 8 0 0 0) (mkdt 2024 1 1 20 0 0 0))
     = [Some "2024-01-01T10:00:00"; Some "2024-01-01T15:00:00"]
  /\ map Calendar.end_
         (Calendar.get_events demo_world (mkdt 2024 1 1 8 0 0 0) (mkdt 2024 1 1 20 0 0 0))
     = [Some "2024-01-01T10:30:00"; Some "2024-01-01T16:00:00"]
  /\ Forall (fun ev => Calendar.start ev <> Some "2024-01-01T09:00:00"
                       /\ Calendar.end_ ev <> Some "2024-01-01T09:30:00")
            (Calendar.get_events demo_world (mkdt 2024 1 1 8 0 0 0)
                                 (mkdt 2024 1 1 20 0 0 0)).
Proof.
  split; [reflexivity|]. split; [reflexivity|]. split; [reflexivity|].
  repeat constructor; discriminate.
Qed.

(** C3.  Without a provider session [get_events] answers with the
    synthetic events of the day [start_time] falls on.  On a weekday
    (Monday to Friday) these are exactly two: "Team Standup", a morning
    entry of 30 minutes, from 10:00 to 10:30, and "Client Review", from
    15:00 to 16:00, one hour.  On Saturday and Sunday the list is empty.
    The list depends on the calendar date of [start_time] alone. *)
Theorem mock_events_by_weekday (w : World) (start_time end_time : datetime) :
  service w = None ->
  (weekday start_time < 5 ->
   Calendar.get_events w start_time end_time
   = [ Calendar.mkEvent ("mock_1_" ++ fmt_Ymd start_time) "Team Standup"
         (Some (isoformat (on_date start_time 10 0)))
         (Some (isoformat (on_date start_time 10 30))) "confirmed";
       Calendar.mkEvent ("mock_2_" ++ fmt_Ymd start_time) "Client Review"
         (Some (isoformat (on_date start_time 15 0)))
         (Some (isoformat (on_date start_time 16 0))) "confirmed" ]
   /\ minute_of_day (on_date start_time 10 30)
      - minute_of_day (on_date start_time 10 0) = 30
   /\ hour (on_date start_time 10 30) < 12
   /\ minute_of_day (on_date start_time 16 0)
      - minute_of_day (on_date start_time 15 0) = 60)
  /\ (5 <= weekday start_time -> Calendar.get_events w start_time end_time = [])
  /\ (forall (w' : World) (start_time' end_time' : datetime),
         service w' = None ->
         year start_time' = year start_time ->
         month start_time' = month start_time ->
         day start_time' = day start_time ->
         Calendar.get_events w' start_time' end_time'
         = Calendar.get_events w start_time end_time).
Proof.
  intros Hs. unfold Calendar.get_events. rewrite Hs, mock_events_eq.
  split; [|split].
  - intros H. apply Z.ltb_lt in H. rewrite H. repeat split.
  - intros H. apply Z.ltb_ge in H. now rewrite H.
  - intros w' [y' m' d' h' mi' s' us'] e' Hs' Hy Hm Hd. cbn in Hy, Hm, Hd.
    subst. rewrite Hs'. destruct start_time. reflexivity.
Qed.

Lemma mock_events_by_weekday_witness :
  Calendar.get_events demo_world (mkdt 2024 1 1 8 15 0 0) (mkdt 2024 1 1 20 15 0 0)
  = [ Calendar.mkEvent "mock_1_20240101" "Team Standup"
        (Some "2024-01-01T10:00:00") (Some "2024-01-01T10:30:00") "confirmed";
      Calendar.mkEvent "mock_2_20240101" "Client Review"
        (Some "2024-01-01T15:00:00") (Some "2024-01-01T16:00:00") "confirmed" ]
  /\ Calendar.get_events demo_world (mkdt 2024 1 6 8 15 0 0) (mkdt 2024 1 6 20 15 0 0)
     = [].
Proof.
  split.
  - apply (proj1 (mock_events_by_weekday demo_world (mkdt 2024 1 1 8 15 0 0)
                    (mkdt 2024 1 1 20 15 0 0) eq_refl)).
    vm_compute. reflexivity.
  - apply (proj1 (proj2 (mock_events_by_weekday demo_world (mkdt 2024 1 6 8 15 0 0)
                           (mkdt 2024 1 6 20 15 0 0) eq_refl))).
    vm_compute. discriminate.
Defined.

(** C10. Without a provider session the list [get_events] returns is
    the same for any two end times.  Nothing confines it to the range
    asked for: for the range 20:00 to 21:00 of Monday 1 January 2024 it
    holds an event that ends at 16:00, before the range starts. *)
Theorem mock_events_ignore_end_time (w : World) (start_time end1 end2 : datetime) :
  service w = None ->
  Calendar.get_events w start_time end1 = Calendar.get_events w start_time end2
  /\ exists (ev : Calendar.Event) (ends : datetime),
      In ev (Calendar.get_events w (mkdt 2024 1 1 20 0 0 0) (mkdt 2024 1 1 21 0 0 0))
      /\ Calendar.end_ ev = Some (isoformat ends)
      /\ earlier ends (mkdt 2024 1 1 20 0 0 0) = true.
Proof.
  intros Hs. unfold Calendar.get_events. rewrite Hs. split; [reflexivity|].
  exists (Calendar.mkEvent "mock_2_20240101" "Client Review"
            (Some "2024-01-01T15:00:00") (Some "2024-01-01T16:00:00") "confirmed"),
         (mkdt 2024 1 1 16 0 0 0).
  split; [right; left; reflexivity | split; reflexivity].
Qed.

Lemma mock_events_ignore_end_time_witness :
  Calendar.get_events demo_world (mkdt 2024 1 2 9 0 0 0) (mkdt 2024 1 2 9 30 0 0)
  = Calendar.get_events demo_world (mkdt 2024 1 2 9 0 0 0) (mkdt 2030 6 1 0 0 0 0).
Proof.
  apply (proj1 (mock_events_ignore_end_time demo_world (mkdt 2024 1 2 9 0 0 0)
                  (mkdt 2024 1 2 9 30 0 0) (mkdt 2030 6 1 0 0 0 0) eq_refl)).
Defined.

(** C7. With a live provider session, a failing insert makes
    [create_event] raise [HTTPException] with status 500; whenever
    [create_event] does return an event under a live session, it is the
    provider's own resource, formatted.  A failing listing, on the read
    path, makes [get_events] fall back to the synthetic events. *)
Theorem create_event_failure_raises (w : World) (svc : Provider)
        (title description : string) (start_time end_time : datetime) :
  service w = Some svc ->
  (forall e : exn,
      events_insert svc (Calendar.event_body title start_time end_time description)
      = Raise e ->
      Calendar.create_event w title start_time end_time description
      = Raise (HTTPException 500 ("Failed to create event: " ++ py_str e)))
  /\ (forall ev : Calendar.Event,
         Calendar.create_event w title start_time end_time description = Ok ev ->
         exists created : GEvent,
           events_insert svc
             (Calendar.event_body title start_time end_time description)
           = Ok created
           /\ Calendar._format_event created = Ok ev)
  /\ (forall e : exn,
         events_list svc (isoformat start_time ++ "Z") (isoformat end_time ++ "Z")
         = Raise e ->
         Calendar.get_events w start_time end_time
         = Calendar._get_mock_events start_time end_time).
Proof.
  intros Hs. unfold Calendar.create_event, Calendar.get_events. rewrite Hs.
  split; [|split].
  - intros e He. now rewrite He.
  - intros ev.
    destruct (events_insert svc
                (Calendar.event_body title start_time end_time description))
      as [created|e]; cbn [bind]; [|discriminate].
    destruct (Calendar._format_event created) as [ev'|e] eqn:Hf; [|discriminate].
    intros [= <-]. now exists created.
  - intros e He. now rewrite He.
Qed.

Lemma create_event_failure_raises_witness :
  Calendar.create_event outage_world "Scheduled Meeting"
    (mkdt 2024 1 2 14 0 0 0) (mkdt 2024 1 2 15 0 0 0)
    "Meeting booked through TailorTalk agent"
  = Raise (HTTPException 500 "Failed to create event: HttpError 503")
  /\ Calendar.get_events outage_world (mkdt 2024 1 2 14 0 0 0) (mkdt 2024 1 2 15 0 0 0)
     = Calendar._get_mock_events (mkdt 2024 1 2 14 0 0 0) (mkdt 2024 1 2 15 0 0 0).
Proof.
  split.
  - apply (proj1 (create_event_failure_raises outage_world failing_provider
                    "Scheduled Meeting" "Meeting booked through TailorTalk agent"
                    (mkdt 2024 1 2 14 0 0 0) (mkdt 2024 1 2 15 0 0 0) eq_refl)
                 (OtherError "HttpError 503")).
    reflexivity.
  - apply (proj2 (proj2 (create_event_failure_raises outage_world failing_provider
                    "Scheduled Meeting" "Meeting booked through TailorTalk agent"
                    (mkdt 2024 1 2 14 0 0 0) (mkdt 2024 1 2 15 0 0 0) eq_refl))
                 (OtherError "HttpError 503")).
    reflexivity.
Defined.

(** ** The completion fallback *)

(** What [call_groq_ai] returns once the service has answered with a
    decoded body: one of the two apologies, or the stripped text found at
    [result["choices"][0]["message"]["content"]]. *)
Lemma call_groq_ai_reply (w : World) (prompt key : string) (result : json) :
  GROQ_API_KEY w = Some key -> key <> "" ->
  groq_post w key prompt = Ok result ->
  Api.call_groq_ai w prompt = Api.not_understood
  \/ Api.call_groq_ai w prompt = Api.no_response
  \/ exists (choices first message : json) (text : string),
      Api.getitem result "choices" = Ok choices
      /\ Api.getitem0 choices = Ok first
      /\ Api.getitem first "message" = Ok message
      /\ Api.getitem message "content" = Ok (JStr text)
      /\ Api.call_groq_ai w prompt = PyStr.strip text.
Proof.
  intros Hk Hne Hp. unfold Api.call_groq_ai. rewrite Hk.
  destruct key as [|c key]; [congruence|]. rewrite Hp. cbn [bind].
  destruct (Api.contains_key "choices" result) as [[|]|]; cbn [bind];
    [| now left | now (right; left)].
  destruct (Api.getitem result "choices") as [choices|] eqn:H1; cbn [bind];
    [| now (right; left)].
  destruct (Api.truthy choices); [| now left].
  destruct (Api.getitem0 choices) as [first|] eqn:H2; cbn [bind];
    [| now (right; left)].
  destruct (Api.getitem first "message") as [message|] eqn:H3; cbn [bind];
    [| now (right; left)].
  destruct (Api.getitem message "content") as [[| | |text| |]|] eqn:H4;
    cbn [bind Api.strip]; try now (right; left).
  right. right. now exists choices, first, message, text.
Qed.

(** C8. For a message without keyword the endpoint always answers, with
    [booking_confirmed] false.  Without a key in the environment (unset,
    or empty) the answer is the fixed "GROQ API key not found" text.  When
    the call to the completion service raises, the answer is the fixed
    apology "couldn't get a response"; when it returns a body, the answer
    is an apology or the stripped text the body holds at the expected
    place. *)
Theorem completion_failures_are_absorbed {V : Type} (w : World)
        (sessions : gmap string V) (cm : Api.ChatMessage) :
  (forall kw, In kw Api.keywords -> ~ contains_nocase kw (Api.message cm)) ->
  Api.chat_endpoint w sessions cm
  = Ok {| Api.response := Api.call_groq_ai w (Api.message cm);
          Api.booking_confirmed := false |}
  /\ (GROQ_API_KEY w = None \/ GROQ_API_KEY w = Some "" ->
      Api.call_groq_ai w (Api.message cm)
      = "GROQ API key not found. Please set GROQ_API_KEY in your .env file.")
  /\ (forall (key : string) (e : exn),
         GROQ_API_KEY w = Some key -> key <> "" ->
         groq_post w key (Api.message cm) = Raise e ->
         Api.call_groq_ai w (Api.message cm)
         = "Sorry, I couldn't get a response from the AI model. Please try again later.")
  /\ (forall (key : string) (result : json),
         GROQ_API_KEY w = Some key -> key <> "" ->
         groq_post w key (Api.message cm) = Ok result ->
         Api.call_groq_ai w (Api.message cm)
         = "Sorry, I couldn't understand the response from the AI model."
         \/ Api.call_groq_ai w (Api.message cm)
            = "Sorry, I couldn't get a response from the AI model. Please try again later."
         \/ exists (choices first message : json) (text : string),
             Api.getitem result "choices" = Ok choices
             /\ Api.getitem0 choices = Ok first
             /\ Api.getitem first "message" = Ok message
             /\ Api.getitem message "content" = Ok (JStr text)
             /\ Api.call_groq_ai w (Api.message cm) = PyStr.strip text).
Proof.
  intros Hno. apply any_in_false in Hno.
  split; [|split; [|split]].
  - unfold Api.chat_endpoint. now rewrite chat_endpoint_completion.
  - unfold Api.call_groq_ai. intros [-> | ->]; reflexivity.
  - intros key e Hk Hne Hp. unfold Api.call_groq_ai. rewrite Hk.
    destruct key; [congruence|]. now rewrite Hp.
  - intros key result. apply call_groq_ai_reply.
Qed.

Lemma completion_failures_are_absorbed_witness :
  Api.chat_endpoint demo_world no_sessions (Api.mkChatMessage "what's the weather" "s2")
  = Ok {| Api.response :=
            "GROQ API key not found. Please set GROQ_API_KEY in your .env file.";
          Api.booking_confirmed := false |}
  /\ Api.chat_endpoint outage_world no_sessions
       (Api.mkChatMessage "what's the weather" "s2")
     = Ok {| Api.response :=
               "Sorry, I couldn't get a response from the AI model. Please try again later.";
             Api.booking_confirmed := false |}.
Proof.
  split.
  - rewrite (proj1 (completion_failures_are_absorbed demo_world no_sessions
                      (Api.mkChatMessage "what's the weather" "s2")
                      ltac:(no_keyword))).
    reflexivity.
  - rewrite (proj1 (completion_failures_are_absorbed outage_world no_sessions
                      (Api.mkChatMessage "what's the weather" "s2")
                      ltac:(no_keyword))).
    reflexivity.
Defined.

(** ** Calendar arithmetic: the ordinal of a date and back *)

Lemma all_from_spec (k : nat) :
  forall (r : Z) (f : Z -> bool),
    all_from k r f = true -> forall x, r <= x < r + Z.of_nat k -> f x = true.
Proof.
  induction k as [|k IH]; intros r f H x Hx; [lia|].
  cbn [all_from] in H. apply andb_true_iff in H as [H1 H2].
  destruct (Z.eq_dec x r) as [->|Hne]; [assumption|].
  apply (IH (r + 1) f H2). lia.
Qed.

Lemma month_day_spec (leap : bool) (n : Z) :
  0 <= n < 365 -> month_day_ok leap n = true.
Proof.
  intros Hn.
  assert (H : all_from 365 0 (fun n => month_day_ok true n && month_day_ok false n)
              = true) by (vm_compute; reflexivity).
  pose proof (all_from_spec _ _ _ H n ltac:(lia)) as Hb. cbv beta in Hb.
  apply andb_true_iff in Hb. destruct leap; tauto.
Qed.

(** The year [n1] of the 4-year cycle [n4] of the century [n100] of the
    400-year cycle [q]: the days before it, and whether it is leap. *)
Lemma year_spec (q n100 n4 n1 : Z) :
  0 <= n100 <= 3 -> 0 <= n4 <= 24 -> 0 <= n1 <= 3 ->
  let y := q * 400 + 1 + n100 * 100 + n4 * 4 + n1 in
  days_before_year y = q * 146097 + n100 * 36524 + n4 * 1461 + n1 * 365
  /\ is_leap y = (n1 =? 3) && (negb (n4 =? 24) || (n100 =? 3)).
Proof.
  intros H100 H4 H1 y. subst y. unfold days_before_year, is_leap. split.
  - Z.to_euclidean_division_equations. lia.
  - destruct (Z.eqb_spec n1 3), (Z.eqb_spec n4 24), (Z.eqb_spec n100 3);
      cbn [andb orb negb];
      repeat match goal with
             | |- context [?a =? ?b] => destruct (Z.eqb_spec a b)
             end;
      cbn [andb orb negb]; try reflexivity; exfalso;
      Z.to_euclidean_division_equations; lia.
Qed.

(** [_ymd2ord] undoes [_ord2ymd]. *)
Lemma ymd2ord_ord2ymd (n : Z) :
  let '(y, m, d) := ord2ymd n in ymd2ord y m d = n.
Proof.
  unfold ord2ymd, ord2ymd_cycle, DI400Y, DI100Y, DI4Y.
  set (q := (n - 1) / 146097). set (r := (n - 1) mod 146097).
  set (n100 := r / 36524). set (r1 := r mod 36524).
  set (n4 := r1 / 1461). set (r2 := r1 mod 1461).
  set (n1 := r2 / 365). set (d0 := r2 mod 365).
  assert (Hn : n - 1 = 146097 * q + r /\ 0 <= r < 146097)
    by (split; [apply Z.div_mod | apply Z.mod_pos_bound]; lia).
  assert (Hr : r = 36524 * n100 + r1 /\ 0 <= r1 < 36524)
    by (split; [apply Z.div_mod | apply Z.mod_pos_bound]; lia).
  assert (Hr1 : r1 = 1461 * n4 + r2 /\ 0 <= r2 < 1461)
    by (split; [apply Z.div_mod | apply Z.mod_pos_bound]; lia).
  assert (Hr2 : r2 = 365 * n1 + d0 /\ 0 <= d0 < 365)
    by (split; [apply Z.div_mod | apply Z.mod_pos_bound]; lia).
  clearbody q r n100 r1 n4 r2 n1 d0.
  destruct (Z.eqb_spec n1 4) as [E1|E1];
    [|destruct (Z.eqb_spec n100 4) as [E100|E100]]; cbn [orb].
  - (* the last day of a leap year *)
    destruct (year_spec q n100 n4 3 ltac:(lia) ltac:(lia) ltac:(lia)) as [Hd Hl].
    replace (q * 400 + 1 + n100 * 100 + n4 * 4 + n1 - 1)
      with (q * 400 + 1 + n100 * 100 + n4 * 4 + 3) by lia.
    unfold ymd2ord, days_before_month. rewrite Hd, Hl.
    destruct (Z.eqb_spec n4 24); [lia|].
    change (table DAYS_BEFORE_MONTH 12) with 334.
    change (2 <? 12) with true. change (3 =? 3) with true.
    cbn [andb orb negb]. lia.
  - (* the last day of the 400-year cycle *)
    destruct (year_spec q 3 24 3 ltac:(lia) ltac:(lia) ltac:(lia)) as [Hd Hl].
    replace (q * 400 + 1 + n100 * 100 + n4 * 4 + n1 - 1)
      with (q * 400 + 1 + 3 * 100 + 24 * 4 + 3) by lia.
    unfold ymd2ord, days_before_month. rewrite Hd, Hl.
    change (table DAYS_BEFORE_MONTH 12) with 334.
    change (2 <? 12) with true. change (3 =? 3) with true.
    change (24 =? 24) with true. cbn [andb orb negb]. lia.
  - destruct (year_spec q n100 n4 n1 ltac:(lia) ltac:(lia) ltac:(lia)) as [Hd Hl].
    pose proof (month_day_spec ((n1 =? 3) && (negb (n4 =? 24) || (n100 =? 3))) d0
                  ltac:(lia)) as Hm.
    unfold month_day_ok in Hm.
    destruct (month_day ((n1 =? 3) && (negb (n4 =? 24) || (n100 =? 3))) d0) as [m d].
    rewrite !andb_true_iff in Hm. destruct Hm as [[[Hm _] _] _].
    apply Z.eqb_eq in Hm.
    unfold ymd2ord, days_before_month. rewrite Hd, Hl. lia.
Qed.

Lemma valid_bounds (dt : datetime) :
  valid dt = true ->
  1 <= year dt <= MAXYEAR /\ 1 <= month dt <= 12 /\ 1 <= day dt
  /\ 0 <= hour dt <= 23 /\ 0 <= minute dt <= 59 /\ 0 <= second dt <= 59
  /\ 0 <= microsecond dt <= 999999.
Proof.
  unfold valid. rewrite !andb_true_iff, !Z.leb_le. tauto.
Qed.

Lemma table_before_month_nonneg (m : Z) :
  1 <= m <= 12 -> 0 <= table DAYS_BEFORE_MONTH m.
Proof.
  intros H.
  assert (Hm : m = 1 \/ m = 2 \/ m = 3 \/ m = 4 \/ m = 5 \/ m = 6 \/ m = 7
               \/ m = 8 \/ m = 9 \/ m = 10 \/ m = 11 \/ m = 12) by lia.
  repeat (destruct Hm as [-> | Hm]; [vm_compute; discriminate|]).
  subst m. vm_compute. discriminate.
Qed.

Lemma toordinal_pos (dt : datetime) : valid dt = true -> 1 <= toordinal dt.
Proof.
  intros H. apply valid_bounds in H as (Hy & Hm & Hd & _).
  unfold toordinal, ymd2ord, days_before_month, days_before_year.
  pose proof (table_before_month_nonneg (month dt) Hm).
  destruct ((2 <? month dt) && is_leap (year dt));
    Z.to_euclidean_division_equations; lia.
Qed.

(** [dt + timedelta(days=1)]: the same time of day on the date whose
    ordinal is one more. *)
Lemma add_one_day (dt : datetime) :
  valid dt = true -> toordinal dt < MAXORDINAL ->
  exists base : datetime,
    add dt (days 1) = Ok base
    /\ toordinal base = toordinal dt + 1
    /\ hour base = hour dt /\ minute base = minute dt
    /\ second base = second dt /\ microsecond base = microsecond dt.
Proof.
  intros Hv Hmax. pose proof (toordinal_pos dt Hv) as Hpos.
  apply valid_bounds in Hv as (_ & _ & _ & Hh & Hmi & Hs & Hus).
  unfold add, days. cbn [td_days td_seconds td_micros].
  assert (E0 : (microsecond dt + 0) / 1000000 = 0)
    by (Z.to_euclidean_division_equations; lia).
  rewrite E0.
  set (secs := hour dt * 3600 + minute dt * 60 + second dt + 0 + 0).
  assert (E1 : secs / 86400 = 0)
    by (subst secs; Z.to_euclidean_division_equations; lia).
  assert (E2 : secs mod 86400 = secs)
    by (subst secs; Z.to_euclidean_division_equations; lia).
  rewrite E1, E2.
  assert (Hin : (0 <? toordinal dt + 1 + 0) && (toordinal dt + 1 + 0 <=? MAXORDINAL)
                = true).
  { apply andb_true_iff. split; [apply Z.ltb_lt | apply Z.leb_le]; lia. }
  rewrite Hin.
  pose proof (ymd2ord_ord2ymd (toordinal dt + 1 + 0)) as Hrt.
  destruct (ord2ymd (toordinal dt + 1 + 0)) as [[y m] d].
  eexists. split; [reflexivity|].
  unfold toordinal at 1. cbn [year month day hour minute second microsecond].
  subst secs. repeat split; try lia; Z.to_euclidean_division_equations; lia.
Qed.

(** ** Slot suggestions *)

Lemma slot_hours_afternoon (preferences : string) :
  contains_nocase "afternoon" preferences ->
  Agent.slot_hours preferences = [14; 15; 16].
Proof.
  intros H. apply contains_nocase_iff in H. unfold Agent.slot_hours. now rewrite H.
Qed.

Lemma slot_hours_morning (preferences : string) :
  contains_nocase "morning" preferences ->
  ~ contains_nocase "afternoon" preferences ->
  Agent.slot_hours preferences = [9; 10; 11].
Proof.
  intros Hm Ha. apply contains_nocase_iff in Hm. rewrite contains_nocase_iff in Ha.
  unfold Agent.slot_hours.
  destruct (PyStr.str_in "afternoon" (PyStr.lower preferences)); [now destruct Ha|].
  now rewrite Hm.
Qed.

Lemma suggest_time_slots_eq (w : World) (preferences : string) (base : datetime) :
  add (now w) (days 1) = Ok base ->
  Agent.suggest_time_slots w preferences
  = "Here are some available time slots:" ++ PyStr.nl
    ++ PyStr.join_lines (Agent.enumerate_slots 1 (Agent.slots_of base preferences)).
Proof. intros H. unfold Agent.suggest_time_slots. now rewrite H. Qed.

(** C6, as the claim states it, fails: a text that contains "morning" and
    also "afternoon" gets the afternoon slots, none of them between 09:00
    and 11:00. *)
Lemma morning_text_gets_afternoon_slots :
  PyStr.str_in "morning" "morning or afternoon" = true
  /\ Agent.suggest_time_slots demo_world "morning or afternoon"
     = "Here are some available time slots:" ++ PyStr.nl
       ++ "1. Tuesday, January 02 at 02:00 PM" ++ PyStr.nl
       ++ "2. Tuesday, January 02 at 03:00 PM" ++ PyStr.nl
       ++ "3. Tuesday, January 02 at 04:00 PM"
  /\ map hour (Agent.slots_of (mkdt 2024 1 2 12 34 56 789) "morning or afternoon")
     = [14; 15; 16]
  /\ Forall (fun slot => ~ (9 <= hour slot <= 11))
            (Agent.slots_of (mkdt 2024 1 2 12 34 56 789) "morning or afternoon").
Proof.
  split; [reflexivity|]. split; [vm_compute; reflexivity|].
  split; [reflexivity|].
  repeat constructor; cbn; lia.
Qed.

(** C6, amended.  With the clock at a valid date before 31 December 9999,
    [suggest_time_slots] proposes three slots on the day after today.
    For a text that contains "afternoon", in any letter case, they are at
    14:00, 15:00 and 16:00; for a text that contains "morning" and not
    "afternoon", at 09:00, 10:00 and 11:00.  The text returned lists them,
    numbered from 1. *)
Theorem suggest_slots_by_preference (w : World) (preferences : string) :
  valid (now w) = true -> toordinal (now w) < MAXORDINAL ->
  exists base : datetime,
    add (now w) (days 1) = Ok base
    /\ toordinal base = toordinal (now w) + 1
    /\ (forall slot, In slot (Agent.slots_of base preferences) ->
                     toordinal slot = toordinal (now w) + 1 /\ minute slot = 0)
    /\ (contains_nocase "afternoon" preferences ->
        Agent.slots_of base preferences
        = [replace_hm base 14 0; replace_hm base 15 0; replace_hm base 16 0]
        /\ Agent.suggest_time_slots w preferences
           = slots_text base "02:00 PM" "03:00 PM" "04:00 PM")
    /\ (contains_nocase "morning" preferences ->
        ~ contains_nocase "afternoon" preferences ->
        Agent.slots_of base preferences
        = [replace_hm base 9 0; replace_hm base 10 0; replace_hm base 11 0]
        /\ Agent.suggest_time_slots w preferences
           = slots_text base "09:00 AM" "10:00 AM" "11:00 AM").
Proof.
  intros Hv Hmax.
  destruct (add_one_day (now w) Hv Hmax) as (base & Hadd & Hord & _).
  exists base. split; [assumption|]. split; [assumption|].
  split; [|split].
  - intros slot Hin. unfold Agent.slots_of in Hin. apply in_map_iff in Hin.
    destruct Hin as (h & <- & _). split; [exact Hord | reflexivity].
  - intros Ha. rewrite (suggest_time_slots_eq w preferences base Hadd).
    unfold Agent.slots_of. rewrite (slot_hours_afternoon preferences Ha).
    split; reflexivity.
  - intros Hm Ha. rewrite (suggest_time_slots_eq w preferences base Hadd).
    unfold Agent.slots_of. rewrite (slot_hours_morning preferences Hm Ha).
    split; reflexivity.
Qed.

Lemma suggest_slots_by_preference_witness :
  exists base : datetime,
    add (now demo_world) (days 1) = Ok base
    /\ toordinal base = toordinal (now demo_world) + 1
    /\ Agent.suggest_time_slots demo_world "Tomorrow AFTERNOON please"
       = slots_text base "02:00 PM" "03:00 PM" "04:00 PM"
    /\ Agent.suggest_time_slots demo_world "early Morning"
       = slots_text base "09:00 AM" "10:00 AM" "11:00 AM".
Proof.
  destruct (suggest_slots_by_preference demo_world "Tomorrow AFTERNOON please"
              eq_refl ltac:(vm_compute; reflexivity))
    as (base & Hadd & Hord & _ & Haft & _).
  destruct (suggest_slots_by_preference demo_world "early Morning"
              eq_refl ltac:(vm_compute; reflexivity))
    as (base' & Hadd' & _ & _ & _ & Hmor).
  assert (base' = base) as -> by congruence.
  exists base. split; [exact Hadd|]. split; [exact Hord|]. split.
  - apply Haft. exists "AFTERNOON". split; reflexivity.
  - apply Hmor.
    + exists "Morning". split; reflexivity.
    + rewrite contains_nocase_iff. vm_compute. discriminate.
Defined.

(** What the node [action] would have answered to "yes, confirm it", had
    the graph reached it: the text of [book_appointment], which names the
    event created. *)
Example book_appointment_names_event :
  Agent.book_appointment demo_world "yes, confirm it"
  = "âœ… Appointment booked successfully!" ++ PyStr.nl
    ++ "Title: Scheduled Meeting" ++ PyStr.nl
    ++ "Time: Tuesday, January 02 at 02:00 PM - 03:00 PM" ++ PyStr.nl
    ++ "Event ID: mock_event_1704204000".
Proof. vm_compute. reflexivity. Qed.

(* ================================================================== *)
(** * Further properties of the code *)

(** ** Loops that may raise *)

Lemma mapM_Ok {A B : Type} (f : A -> Result B) (l : list A) (r : list B) :
  mapM f l = Ok r <-> Forall2 (fun a b => f a = Ok b) l r.
Proof.
  revert r; induction l as [|a l IH]; intros r; cbn [mapM].
  - split; [intros [= <-]; constructor | intros H; inversion H; reflexivity].
  - split.
    + destruct (f a) as [b|e] eqn:Ha; cbn [bind]; [|discriminate].
      destruct (mapM f l) as [bs|e]; cbn [bind]; [|discriminate].
      intros [= <-]. constructor; [assumption | now apply IH].
    + intros H. inversion H as [|a' b l' bs Hab Hrest]; subst.
      rewrite Hab. cbn [bind]. apply IH in Hrest. now rewrite Hrest.
Qed.

Lemma mapM_Raise {A B : Type} (f : A -> Result B) (l : list A) (a : A) (e : exn) :
  In a l -> f a = Raise e -> exists e', mapM f l = Raise e'.
Proof.
  induction l as [|x l IH]; intros Hin Ha; [destruct Hin|].
  cbn [mapM]. destruct Hin as [-> | Hin].
  - rewrite Ha. now exists e.
  - destruct (f x) as [b|e0]; cbn [bind]; [|now exists e0].
    destruct (IH Hin Ha) as (e' & ->). now exists e'.
Qed.

(** ** [_format_event] *)

Lemma format_event_total (g : GEvent) :
  well_formed g = true -> exists ev, Calendar._format_event g = Ok ev.
Proof.
  unfold Calendar._format_event, well_formed, Calendar.dict_get.
  destruct (g_start g), (g_end g), (g_id g); cbn [bind]; intros H;
    first [discriminate | eexists; reflexivity].
Qed.

Lemma format_event_fields (g : GEvent) (ev : Calendar.Event) :
  Calendar._format_event g = Ok ev ->
  Some (Calendar.id ev) = g_id g
  /\ Calendar.title ev = Calendar.get_default (g_summary g) "No Title"
  /\ Calendar.status ev = Calendar.get_default (g_status g) "confirmed".
Proof.
  unfold Calendar._format_event, Calendar.dict_get.
  destruct (g_start g) as [s|], (g_end g) as [e|], (g_id g) as [i|];
    cbn [bind]; try discriminate.
  intros [= <-]. repeat split.
Qed.



Lemma format_event_fails (g : GEvent) :
  well_formed g = false -> exists k, Calendar._format_event g = Raise (KeyError k).
Proof.
  unfold Calendar._format_event, well_formed, Calendar.dict_get.
  destruct (g_start g), (g_end g), (g_id g); cbn [bind]; intros H;
    first [discriminate | eexists; reflexivity].
Qed.

(** ** [get_events] and [create_event] with a live provider *)

(** X2. One malformed resource spoils a whole listing: when the provider
    answers, and one of the listed events lacks ['start'], ['end'] or
    ['id'], [get_events] drops every event of the provider and returns
    the synthetic events of the day. *)
Theorem listing_with_malformed_event_degrades (w : World) (svc : Provider)
        (start_time end_time : datetime) (items : list GEvent) (g : GEvent) :
  service w = Some svc ->
  events_list svc (isoformat start_time ++ "Z") (isoformat end_time ++ "Z")
  = Ok (Some items) ->
  In g items -> well_formed g = false ->
  Calendar.get_events w start_time end_time
  = Calendar._get_mock_events start_time end_time.
Proof.
  intros Hs Hl Hin Hg. unfold Calendar.get_events. rewrite Hs, Hl. cbn [bind].
  destruct (format_event_fails g Hg) as (k & Hk).
  destruct (mapM_Raise Calendar._format_event items g _ Hin Hk) as (e' & He').
  cbn [Calendar.get_default]. now rewrite He'.
Qed.

Lemma listing_with_malformed_event_degrades_witness :
  Calendar.get_events
    (world_with (answering_provider (Some [lunch; all_day_without_id])
                                    (Raise (OtherError "unused"))))
    (mkdt 2024 1 2 8 0 0 0) (mkdt 2024 1 2 20 0 0 0)
  = Calendar._get_mock_events (mkdt 2024 1 2 8 0 0 0) (mkdt 2024 1 2 20 0 0 0).
Proof.
  apply (listing_with_malformed_event_degrades
           (world_with (answering_provider (Some [lunch; all_day_without_id])
                                           (Raise (OtherError "unused"))))
           (answering_provider (Some [lunch; all_day_without_id])
                               (Raise (OtherError "unused")))
           (mkdt 2024 1 2 8 0 0 0) (mkdt 2024 1 2 20 0 0 0)
           [lunch; all_day_without_id] all_day_without_id);
    [reflexivity | reflexivity | right; left; reflexivity | reflexivity].
Defined.

(** X3. When the provider answers and every listed event is well formed,
    [get_events] returns the provider's events, formatted, one for one
    and in the provider's order; an answer without ['items'] gives the
    empty list.  No synthetic event is mixed in. *)
Theorem listing_returns_provider_events (w : World) (svc : Provider)
        (start_time end_time : datetime) (items : option (list GEvent)) :
  service w = Some svc ->
  events_list svc (isoformat start_time ++ "Z") (isoformat end_time ++ "Z")
  = Ok items ->
  Forall (fun g => well_formed g = true) (Calendar.get_default items []) ->
  Forall2 (fun g ev => Calendar._format_event g = Ok ev)
          (Calendar.get_default items [])
          (Calendar.get_events w start_time end_time)
  /\ length (Calendar.get_events w start_time end_time)
     = length (Calendar.get_default items [])
  /\ map (fun ev => Some (Calendar.id ev)) (Calendar.get_events w start_time end_time)
     = map g_id (Calendar.get_default items []).
Proof.
  intros Hs Hl Hwf. unfold Calendar.get_events. rewrite Hs, Hl. cbn [bind].
  assert (H : exists evs,
             mapM Calendar._format_event (Calendar.get_default items []) = Ok evs).
  { induction Hwf as [|g l Hg _ IH]; [now exists []|].
    apply format_event_total in Hg as (ev & Hev).
    destruct IH as (evs & Hevs). exists (ev :: evs).
    cbn [mapM]. now rewrite Hev, Hevs. }
  destruct H as (evs & Hevs). rewrite Hevs. apply mapM_Ok in Hevs.
  split; [assumption|]. split.
  - symmetry. eapply Forall2_length. eassumption.
  - clear Hwf. induction Hevs as [|g ev l evs Hg _ IH]; [reflexivity|].
    cbn [map]. rewrite IH. f_equal.
    now apply format_event_fields.
Qed.

Lemma listing_returns_provider_events_witness :
  map (fun ev => Some (Calendar.id ev))
      (Calendar.get_events
         (world_with (answering_provider (Some [lunch]) (Raise (OtherError "unused"))))
         (mkdt 2024 1 2 8 0 0 0) (mkdt 2024 1 2 20 0 0 0))
  = [Some "ev1"].
Proof.
  apply (proj2 (proj2 (listing_returns_provider_events
           (world_with (answering_provider (Some [lunch]) (Raise (OtherError "unused"))))
           (answering_provider (Some [lunch]) (Raise (OtherError "unused")))
           (mkdt 2024 1 2 8 0 0 0) (mkdt 2024 1 2 20 0 0 0) (Some [lunch])
           eq_refl eq_refl ltac:(repeat constructor)))).
Defined.

(** X4. A write the provider accepted can still be reported as failed:
    when the insert succeeds but the resource returned lacks ['start'],
    ['end'] or ['id'], [create_event] raises [HTTPException] 500 whose
    detail names the missing key: 'start' when ['start'] is missing,
    'end' when only ['start'] is there, 'id' when both are there and
    ['id'] is missing. *)
Theorem create_event_malformed_resource (w : World) (svc : Provider)
        (title description : string) (start_time end_time : datetime)
        (created : GEvent) :
  service w = Some svc ->
  events_insert svc (Calendar.event_body title start_time end_time description)
  = Ok created ->
  (g_start created = None ->
   Calendar.create_event w title start_time end_time description
   = Raise (HTTPException 500 "Failed to create event: 'start'"))
  /\ (g_start created <> None -> g_end created = None ->
      Calendar.create_event w title start_time end_time description
      = Raise (HTTPException 500 "Failed to create event: 'end'"))
  /\ (g_start created <> None -> g_end created <> None -> g_id created = None ->
      Calendar.create_event w title start_time end_time description
      = Raise (HTTPException 500 "Failed to create event: 'id'")).
Proof.
  intros Hs Hi. unfold Calendar.create_event. rewrite Hs, Hi. cbn [bind].
  unfold Calendar._format_event, Calendar.dict_get.
  split; [|split].
  - intros ->. reflexivity.
  - intros Hst ->. destruct (g_start created); [reflexivity | congruence].
  - intros Hst Hen ->. destruct (g_start created), (g_end created);
      congruence || reflexivity.
Qed.

Lemma create_event_malformed_resource_witness :
  Calendar.create_event
    (world_with (answering_provider None (Ok all_day_without_id)))
    "Scheduled Meeting" (mkdt 2024 1 2 14 0 0 0) (mkdt 2024 1 2 15 0 0 0) ""
  = Raise (HTTPException 500 "Failed to create event: 'id'")
  /\ Calendar.create_event
       (world_with (answering_provider None
                      (Ok (mkGEvent (Some "abc123") None None None None))))
       "Scheduled Meeting" (mkdt 2024 1 2 14 0 0 0) (mkdt 2024 1 2 15 0 0 0) ""
     = Raise (HTTPException 500 "Failed to create event: 'start'").
Proof.
  split.
  - apply (proj2 (proj2 (create_event_malformed_resource
             (world_with (answering_provider None (Ok all_day_without_id)))
             (answering_provider None (Ok all_day_without_id))
             "Scheduled Meeting" "" (mkdt 2024 1 2 14 0 0 0) (mkdt 2024 1 2 15 0 0 0)
             all_day_without_id eq_refl eq_refl)));
      first [discriminate | reflexivity].
  - apply (proj1 (create_event_malformed_resource
             (world_with (answering_provider None
                            (Ok (mkGEvent (Some "abc123") None None None None))))
             (answering_provider None
                (Ok (mkGEvent (Some "abc123") None None None None)))
             "Scheduled Meeting" "" (mkdt 2024 1 2 14 0 0 0) (mkdt 2024 1 2 15 0 0 0)
             (mkGEvent (Some "abc123") None None None None) eq_refl eq_refl)).
    reflexivity.
Defined.

(** X5. What [create_event] returns under a live session is read from the
    provider's answer, not from its arguments: the id, the times and the
    title are the resource's, and a resource without summary comes back
    titled "No Title" whatever title was asked for. *)
Theorem create_event_returns_provider_fields (w : World) (svc : Provider)
        (title description : string) (start_time end_time : datetime)
        (created : GEvent) :
  service w = Some svc ->
  events_insert svc (Calendar.event_body title start_time end_time description)
  = Ok created ->
  well_formed created = true ->
  exists ev,
    Calendar.create_event w title start_time end_time description = Ok ev
    /\ Calendar._format_event created = Ok ev
    /\ Some (Calendar.id ev) = g_id created
    /\ Calendar.title ev = Calendar.get_default (g_summary created) "No Title".
Proof.
  intros Hs Hi Hwf. unfold Calendar.create_event. rewrite Hs, Hi. cbn [bind].
  apply format_event_total in Hwf as (ev & Hev).
  exists ev. rewrite Hev. split; [reflexivity|]. split; [reflexivity|].
  destruct (format_event_fields created ev Hev) as (Hid & Ht & _).
  now split.
Qed.

Lemma create_event_returns_provider_fields_witness :
  exists ev,
    Calendar.create_event
      (world_with (answering_provider None
         (Ok (mkGEvent (Some "abc123") None (Some (timed "2024-01-02T14:00:00Z"))
                       (Some (timed "2024-01-02T15:00:00Z")) None))))
      "Scheduled Meeting" (mkdt 2024 1 2 14 0 0 0) (mkdt 2024 1 2 15 0 0 0) ""
    = Ok ev
    /\ Calendar.id ev = "abc123" /\ Calendar.title ev = "No Title".
Proof.
  destruct (create_event_returns_provider_fields
              (world_with (answering_provider None
                 (Ok (mkGEvent (Some "abc123") None (Some (timed "2024-01-02T14:00:00Z"))
                               (Some (timed "2024-01-02T15:00:00Z")) None))))
              (answering_provider None
                 (Ok (mkGEvent (Some "abc123") None (Some (timed "2024-01-02T14:00:00Z"))
                               (Some (timed "2024-01-02T15:00:00Z")) None)))
              "Scheduled Meeting" "" (mkdt 2024 1 2 14 0 0 0) (mkdt 2024 1 2 15 0 0 0)
              _ eq_refl eq_refl eq_refl)
    as (ev & Hc & _ & Hid & Ht).
  exists ev. split; [exact Hc|]. cbn in Hid.
  split; [congruence | exact Ht].
Defined.

(** ** The endpoint and the intent *)

Lemma any_in_app (ws ws' : list string) (text : string) :
  PyStr.any_in (ws ++ ws')%list text = PyStr.any_in ws text || PyStr.any_in ws' text.
Proof. unfold PyStr.any_in. apply existsb_app. Qed.

Lemma keywords_split (text : string) :
  PyStr.any_in Api.keywords text
  = PyStr.any_in booking_words text || PyStr.any_in availability_words text
    || PyStr.any_in confirmation_words text.
Proof.
  change Api.keywords
    with ((booking_words ++ availability_words) ++ confirmation_words)%list.
  now rewrite !any_in_app.
Qed.

(** X6. The keyword list of [chat_endpoint] is the union of the three
    word lists of [call_model]: a request is served by the graph exactly
    when the intent [call_model] detects in its message is not "unknown",
    and by the completion service exactly when it is. *)
Theorem graph_serves_known_intents {V : Type} (w : World) (sessions : gmap string V)
        (cm : Api.ChatMessage) :
  ((exists resp nodes,
       fst (Api.chat_endpoint_traced w sessions cm) = Ok (resp, Api.ByGraph nodes))
   <-> Agent.detect_intent (Api.message cm) <> "unknown")
  /\ ((exists resp,
          fst (Api.chat_endpoint_traced w sessions cm)
          = Ok (resp, Api.ByCompletion (Api.message cm)))
      <-> Agent.detect_intent (Api.message cm) = "unknown").
Proof.
  rewrite detect_intent_cases.
  destruct (PyStr.any_in Api.keywords (PyStr.lower (Api.message cm))) eqn:E.
  - rewrite (chat_endpoint_graph w sessions cm E). cbn [fst].
    rewrite keywords_split in E.
    destruct (PyStr.any_in booking_words _), (PyStr.any_in availability_words _),
      (PyStr.any_in confirmation_words _); try discriminate;
      (split; split; [intros _; discriminate | intros _; eauto
                     | intros (resp & H); discriminate | discriminate]).
  - rewrite (chat_endpoint_completion w sessions cm E). cbn [fst].
    rewrite keywords_split in E.
    destruct (PyStr.any_in booking_words _), (PyStr.any_in availability_words _),
      (PyStr.any_in confirmation_words _); try discriminate.
    split; split;
      [intros (resp & nodes & H); discriminate | congruence
      | reflexivity | intros _; eauto].
Qed.

(** X7. The graph branch of the endpoint can only say one of five fixed
    sentences; the greeting [call_model] keeps for the intent "unknown"
    is never one of them. *)
Theorem graph_reply_is_one_of_five {V : Type} (w : World) (sessions : gmap string V)
        (cm : Api.ChatMessage) (resp : Api.ChatResponse) (nodes : list Agent.Node) :
  fst (Api.chat_endpoint_traced w sessions cm) = Ok (resp, Api.ByGraph nodes) ->
  In (Api.response resp)
     ["I'd be happy to help you schedule a call for tomorrow afternoon! Let me check what times are available.";
      "Let me check your availability for this Friday.";
      "I'll help you schedule that meeting. Could you tell me your preferred date and time?";
      "Let me check your calendar availability.";
      "Great! Let me book that appointment for you."]
  /\ Api.response resp
     <> "Hello! I'm here to help you schedule appointments. What would you like to book?".
Proof.
  destruct (PyStr.any_in Api.keywords (PyStr.lower (Api.message cm))) eqn:E.
  - rewrite (chat_endpoint_graph w sessions cm E). cbn [fst]. intros [= <- _].
    cbn [Api.response]. rewrite keywords_split in E.
    rewrite detect_intent_cases. unfold Agent.generate_response.
    destruct (PyStr.any_in booking_words _); cbn [String.eqb].
    + change ("booking" =? "booking")%string with true. cbv iota.
      destruct (PyStr.str_in "tomorrow afternoon" _);
        [|destruct (PyStr.str_in "friday" _)];
        (split; [cbn; tauto | discriminate]).
    + destruct (PyStr.any_in availability_words _).
      * split; [cbn; tauto | discriminate].
      * destruct (PyStr.any_in confirmation_words _); [|discriminate].
        split; [cbn; tauto | discriminate].
  - rewrite (chat_endpoint_completion w sessions cm E). discriminate.
Qed.

Lemma graph_reply_is_one_of_five_witness :
  Api.response
    {| Api.response := "Let me check your availability for this Friday.";
       Api.booking_confirmed := false |}
  <> "Hello! I'm here to help you schedule appointments. What would you like to book?".
Proof.
  apply (graph_reply_is_one_of_five demo_world no_sessions
           (Api.mkChatMessage "Book me a slot on FRIDAY" "s1") _ [Agent.agent]).
  reflexivity.
Defined.

(** X8. [booking_confirmed], read off the message: it is true exactly
    when the message contains a confirmation word and neither a booking
    word nor an availability word.  "yes, book it" is not a
    confirmation. *)
Theorem booking_confirmed_iff {V : Type} (w : World) (sessions : gmap string V)
        (cm : Api.ChatMessage) (resp : Api.ChatResponse) :
  Api.chat_endpoint w sessions cm = Ok resp ->
  (Api.booking_confirmed resp = true
   <-> (exists c, In c confirmation_words /\ contains_nocase c (Api.message cm))
       /\ (forall b, In b booking_words -> ~ contains_nocase b (Api.message cm))
       /\ (forall a, In a availability_words -> ~ contains_nocase a (Api.message cm))).
Proof.
  unfold Api.chat_endpoint.
  rewrite <- (any_in_true confirmation_words).
  assert (Hno : forall ws,
             (forall x, In x ws -> ~ contains_nocase x (Api.message cm))
             <-> PyStr.any_in ws (PyStr.lower (Api.message cm)) = false).
  { intros ws. split; [apply any_in_false|].
    intros H x Hx Hc.
    assert (PyStr.any_in ws (PyStr.lower (Api.message cm)) = true)
      by (apply any_in_true; eauto).
    congruence. }
  rewrite !Hno.
  destruct (PyStr.any_in Api.keywords (PyStr.lower (Api.message cm))) eqn:E.
  - rewrite (chat_endpoint_graph w sessions cm E). cbn [fst bind]. intros [= <-].
    cbn [Api.booking_confirmed]. rewrite detect_intent_cases.
    destruct (PyStr.any_in booking_words _), (PyStr.any_in availability_words _),
      (PyStr.any_in confirmation_words _); cbn; intuition congruence.
  - rewrite (chat_endpoint_completion w sessions cm E). cbn [fst bind].
    intros [= <-]. cbn [Api.booking_confirmed]. rewrite keywords_split in E.
    destruct (PyStr.any_in booking_words _), (PyStr.any_in availability_words _),
      (PyStr.any_in confirmation_words _); cbn in *; intuition congruence.
Qed.

Lemma booking_confirmed_iff_witness :
  Api.booking_confirmed
    {| Api.response :=
         "I'll help you schedule that meeting. Could you tell me your preferred date and time?";
       Api.booking_confirmed := false |}
  = true
  <-> (exists c, In c confirmation_words /\ contains_nocase c "yes, book it")
      /\ (forall b, In b booking_words -> ~ contains_nocase b "yes, book it")
      /\ (forall a, In a availability_words -> ~ contains_nocase a "yes, book it").
Proof.
  apply (booking_confirmed_iff demo_world no_sessions
           (Api.mkChatMessage "yes, book it" "s1")).
  reflexivity.
Defined.

(** ** [call_groq_ai] and the shape of the body *)

(** X9. When the service answers with an object whose ["choices"] is a
    non-empty list, whose first choice has a ["message"] object with a
    string ["content"], [call_groq_ai] returns that string, stripped;
    other fields and further choices are ignored. *)
Theorem completion_text_is_stripped (w : World) (prompt key text : string)
        (fields choice message : list (string * json)) (others : list json) :
  GROQ_API_KEY w = Some key -> key <> "" ->
  groq_post w key prompt = Ok (JObj fields) ->
  Api.lookup_last "choices" fields = Some (JArr (JObj choice :: others)) ->
  Api.lookup_last "message" choice = Some (JObj message) ->
  Api.lookup_last "content" message = Some (JStr text) ->
  Api.call_groq_ai w prompt = PyStr.strip text.
Proof.
  intros Hk Hne Hp Hc Hm Ht. unfold Api.call_groq_ai. rewrite Hk.
  destruct key; [congruence|]. rewrite Hp. cbn [bind Api.contains_key].
  rewrite (lookup_last_present _ _ _ Hc). cbn [bind Api.getitem].
  rewrite Hc. cbn [bind Api.truthy Api.getitem0 Api.getitem].
  rewrite Hm. cbn [bind Api.getitem]. rewrite Ht. reflexivity.
Qed.

Lemma completion_text_is_stripped_witness :
  Api.call_groq_ai (completion_world (Ok (completion_body "  It is sunny. ")))
                   "what's the weather"
  = "It is sunny.".
Proof.
  rewrite (completion_text_is_stripped
             (completion_world (Ok (completion_body "  It is sunny. ")))
             "what's the weather" "gsk_test" "  It is sunny. "
             [("id", JStr "chatcmpl-1");
              ("choices",
               JArr [JObj [("index", JNum 0);
                           ("message", JObj [("role", JStr "assistant");
                                             ("content", JStr "  It is sunny. ")])]])]
             [("index", JNum 0);
              ("message", JObj [("role", JStr "assistant");
                                ("content", JStr "  It is sunny. ")])]
             [("role", JStr "assistant"); ("content", JStr "  It is sunny. ")]
             [] eq_refl ltac:(discriminate) eq_refl eq_refl eq_refl eq_refl).
  reflexivity.
Defined.

(** X10. An object without ["choices"], or whose ["choices"] is empty,
    null, zero, false or the empty string, gets the answer "couldn't
    understand the response"; nothing is raised and nothing else of the
    body is read. *)
Theorem completion_without_choices (w : World) (prompt key : string)
        (fields : list (string * json)) :
  GROQ_API_KEY w = Some key -> key <> "" ->
  groq_post w key prompt = Ok (JObj fields) ->
  (Api.lookup_last "choices" fields = None
   \/ exists choices, Api.lookup_last "choices" fields = Some choices
                      /\ Api.truthy choices = false) ->
  Api.call_groq_ai w prompt
  = "Sorry, I couldn't understand the response from the AI model.".
Proof.
  intros Hk Hne Hp Hc. unfold Api.call_groq_ai. rewrite Hk.
  destruct key; [congruence|]. rewrite Hp. cbn [bind Api.contains_key].
  destruct Hc as [Hc | (choices & Hc & Hf)].
  - now rewrite (lookup_last_absent _ _ Hc).
  - rewrite (lookup_last_present _ _ _ Hc). cbn [bind Api.getitem].
    rewrite Hc. cbn [bind]. now rewrite Hf.
Qed.

Lemma completion_without_choices_witness :
  Api.call_groq_ai (completion_world (Ok (JObj [("choices", JArr [])]))) "hello"
  = "Sorry, I couldn't understand the response from the AI model."
  /\ Api.call_groq_ai
       (completion_world (Ok (JObj [("error", JStr "rate limited")]))) "hello"
     = "Sorry, I couldn't understand the response from the AI model.".
Proof.
  split.
  - apply (completion_without_choices
             (completion_world (Ok (JObj [("choices", JArr [])]))) "hello" "gsk_test"
             [("choices", JArr [])] eq_refl ltac:(discriminate) eq_refl).
    right. exists (JArr []). split; reflexivity.
  - apply (completion_without_choices
             (completion_world (Ok (JObj [("error", JStr "rate limited")]))) "hello"
             "gsk_test" [("error", JStr "rate limited")]
             eq_refl ltac:(discriminate) eq_refl).
    left. reflexivity.
Defined.

(** X11. A body that is not an object never yields text: a number, a
    boolean or null makes the membership test raise, which is absorbed
    into the apology "couldn't get a response"; a list or a string gives
    that apology when it contains "choices" (indexing it by a string
    raises) and "couldn't understand" when it does not. *)
Theorem completion_body_not_an_object (w : World) (prompt key : string) (body : json) :
  GROQ_API_KEY w = Some key -> key <> "" ->
  groq_post w key prompt = Ok body ->
  (forall fields, body <> JObj fields) ->
  (Api.call_groq_ai w prompt = Api.no_response
   \/ Api.call_groq_ai w prompt = Api.not_understood)
  /\ ((body = JNull \/ (exists b, body = JBool b) \/ (exists z, body = JNum z)) ->
      Api.call_groq_ai w prompt = Api.no_response)
  /\ (Api.contains_key "choices" body = Ok true ->
      Api.call_groq_ai w prompt = Api.no_response)
  /\ (Api.contains_key "choices" body = Ok false ->
      Api.call_groq_ai w prompt = Api.not_understood).
Proof.
  intros Hk Hne Hp Hobj. unfold Api.call_groq_ai. rewrite Hk.
  destruct key; [congruence|]. rewrite Hp. cbn [bind].
  destruct body as [|b|z|s|items|fields]; try (now destruct (Hobj fields));
    cbn [Api.contains_key bind].
  - repeat split; try discriminate; auto.
  - repeat split; try discriminate; auto.
  - repeat split; try discriminate; auto.
  - destruct (PyStr.str_in "choices" s); cbn [bind Api.getitem];
      (split; [auto|]); (split; [intros [H|[[? H]|[? H]]]; discriminate|]);
      split; intros H; first [reflexivity | discriminate].
  - destruct (existsb _ items); cbn [bind Api.getitem];
      (split; [auto|]); (split; [intros [H|[[? H]|[? H]]]; discriminate|]);
      split; intros H; first [reflexivity | discriminate].
Qed.

Lemma completion_body_not_an_object_witness :
  Api.call_groq_ai (completion_world (Ok JNull)) "hello" = Api.no_response
  /\ Api.call_groq_ai (completion_world (Ok (JArr [JStr "choices"]))) "hello"
     = Api.no_response.
Proof.
  split.
  - apply (proj1 (proj2 (completion_body_not_an_object
             (completion_world (Ok JNull)) "hello" "gsk_test" JNull
             eq_refl ltac:(discriminate) eq_refl ltac:(discriminate)))).
    left. reflexivity.
  - apply (proj1 (proj2 (proj2 (completion_body_not_an_object
             (completion_world (Ok (JArr [JStr "choices"]))) "hello" "gsk_test"
             (JArr [JStr "choices"])
             eq_refl ltac:(discriminate) eq_refl ltac:(discriminate))))).
    reflexivity.
Defined.

(** ** Adding a [timedelta] *)

Lemma valid_time_ok (dt : datetime) : valid dt = true -> time_ok dt.
Proof. intros H. apply valid_bounds in H. unfold time_ok. tauto. Qed.

(** [dt + timedelta(days=k)] keeps the time of day and moves the date by
    [k] days. *)
Lemma add_days (dt : datetime) (k : Z) :
  time_ok dt -> 0 < toordinal dt + k <= MAXORDINAL ->
  exists r : datetime,
    add dt (days k) = Ok r
    /\ toordinal r = toordinal dt + k
    /\ hour r = hour dt /\ minute r = minute dt
    /\ second r = second dt /\ microsecond r = microsecond dt.
Proof.
  intros (Hh & Hmi & Hs & Hus) Hrange.
  unfold add, days. cbn [td_days td_seconds td_micros].
  assert (E0 : (microsecond dt + 0) / 1000000 = 0)
    by (Z.to_euclidean_division_equations; lia).
  rewrite E0.
  set (secs := hour dt * 3600 + minute dt * 60 + second dt + 0 + 0).
  assert (E1 : secs / 86400 = 0)
    by (subst secs; Z.to_euclidean_division_equations; lia).
  assert (E2 : secs mod 86400 = secs)
    by (subst secs; Z.to_euclidean_division_equations; lia).
  rewrite E1, E2.
  assert (Hin : (0 <? toordinal dt + k + 0) && (toordinal dt + k + 0 <=? MAXORDINAL)
                = true).
  { apply andb_true_iff. split; [apply Z.ltb_lt | apply Z.leb_le]; lia. }
  rewrite Hin.
  pose proof (ymd2ord_ord2ymd (toordinal dt + k + 0)) as Hrt.
  destruct (ord2ymd (toordinal dt + k + 0)) as [[y m] d].
  eexists. split; [reflexivity|].
  unfold toordinal at 1. cbn [year month day hour minute second microsecond].
  subst secs. repeat split; try lia; Z.to_euclidean_division_equations; lia.
Qed.

(** [dt + timedelta(hours=n)], for less than a day: the date stays or
    moves to the next day. *)
Lemma add_hours (dt : datetime) (n : Z) :
  time_ok dt -> 0 <= n < 24 -> 0 < toordinal dt -> toordinal dt < MAXORDINAL ->
  exists r : datetime,
    add dt (hours n) = Ok r
    /\ minute_of_day r = (minute_of_day dt + n * 60) mod 1440.
Proof.
  intros (Hh & Hmi & Hs & Hus) Hn Hpos Hmax.
  unfold add, hours. cbn [td_days td_seconds td_micros].
  assert (E0 : (microsecond dt + 0) / 1000000 = 0)
    by (Z.to_euclidean_division_equations; lia).
  assert (Ed : n * 3600 / 86400 = 0) by (Z.to_euclidean_division_equations; lia).
  assert (Em : (n * 3600) mod 86400 = n * 3600)
    by (Z.to_euclidean_division_equations; lia).
  rewrite E0, Ed, Em.
  set (secs := hour dt * 3600 + minute dt * 60 + second dt + n * 3600 + 0).
  assert (Hc : secs / 86400 = 0 \/ secs / 86400 = 1)
    by (subst secs; Z.to_euclidean_division_equations; lia).
  assert (Hin : (0 <? toordinal dt + 0 + secs / 86400)
                && (toordinal dt + 0 + secs / 86400 <=? MAXORDINAL) = true).
  { apply andb_true_iff. split; [apply Z.ltb_lt | apply Z.leb_le]; lia. }
  rewrite Hin.
  destruct (ord2ymd (toordinal dt + 0 + secs / 86400)) as [[y m] d].
  eexists. split; [reflexivity|].
  unfold minute_of_day. cbn [hour minute]. subst secs.
  Z.to_euclidean_division_equations. lia.
Qed.

(** ** [check_calendar_availability] *)

Lemma check_calendar_availability_eq (w : World) (date_range : string) :
  Agent.check_calendar_availability w date_range
  = match (let* start_date := start_date_of w date_range in
           availability_report w start_date) with
    | Ok s => s
    | Raise e => "Error checking calendar: " ++ py_str e
    end.
Proof. reflexivity. Qed.

Lemma not_contains_nocase (kw u : string) :
  ~ contains_nocase kw u <-> PyStr.str_in kw (PyStr.lower u) = false.
Proof.
  rewrite contains_nocase_iff.
  destruct (PyStr.str_in kw (PyStr.lower u)); split; congruence.
Qed.

Lemma start_date_of_tomorrow (w : World) (date_range : string) :
  contains_nocase "tomorrow" date_range
  \/ (~ contains_nocase "today" date_range /\ ~ contains_nocase "friday" date_range) ->
  start_date_of w date_range = add (now w) (days 1).
Proof.
  unfold start_date_of.
  intros [H | [H1 H2]].
  - apply contains_nocase_iff in H. now rewrite H.
  - apply not_contains_nocase in H1, H2. rewrite H1, H2.
    now destruct (PyStr.str_in "tomorrow" _).
Qed.

Lemma start_date_of_today (w : World) (date_range : string) :
  ~ contains_nocase "tomorrow" date_range -> contains_nocase "today" date_range ->
  start_date_of w date_range = Ok (now w).
Proof.
  unfold start_date_of. intros H1 H2.
  apply not_contains_nocase in H1. apply contains_nocase_iff in H2.
  now rewrite H1, H2.
Qed.

Lemma start_date_of_friday (w : World) (date_range : string) :
  ~ contains_nocase "tomorrow" date_range -> ~ contains_nocase "today" date_range ->
  contains_nocase "friday" date_range ->
  start_date_of w date_range
  = add (now_again w)
        (days (if 4 - weekday (now w) <=? 0 then 4 - weekday (now w) + 7
               else 4 - weekday (now w))).
Proof.
  unfold start_date_of. intros H1 H2 H3.
  apply not_contains_nocase in H1, H2. apply contains_nocase_iff in H3.
  now rewrite H1, H2, H3.
Qed.

(** X12. Which day [check_calendar_availability] reports on depends only
    on three words, tested in the order "tomorrow", "today", "friday", in
    any letter case: a text with "tomorrow" is answered like "tomorrow"
    whatever else it says, and so is a text with none of the three words;
    "today" without "tomorrow" is answered like "today"; "friday" counts
    only when both other words are absent. *)
Theorem availability_day_precedence (w : World) (date_range : string) :
  ((contains_nocase "tomorrow" date_range
    \/ (~ contains_nocase "today" date_range
        /\ ~ contains_nocase "friday" date_range)) ->
   Agent.check_calendar_availability w date_range
   = Agent.check_calendar_availability w "tomorrow")
  /\ (~ contains_nocase "tomorrow" date_range ->
      contains_nocase "today" date_range ->
      Agent.check_calendar_availability w date_range
      = Agent.check_calendar_availability w "today")
  /\ (~ contains_nocase "tomorrow" date_range ->
      ~ contains_nocase "today" date_range ->
      contains_nocase "friday" date_range ->
      Agent.check_calendar_availability w date_range
      = Agent.check_calendar_availability w "friday").
Proof.
  rewrite !check_calendar_availability_eq.
  split; [|split].
  - intros H. rewrite (start_date_of_tomorrow w date_range H). reflexivity.
  - intros H1 H2. rewrite (start_date_of_today w date_range H1 H2). reflexivity.
  - intros H1 H2 H3. rewrite (start_date_of_friday w date_range H1 H2 H3).
    reflexivity.
Qed.

Lemma availability_day_precedence_witness :
  Agent.check_calendar_availability demo_world "Am I free TODAY or tomorrow?"
  = Agent.check_calendar_availability demo_world "tomorrow"
  /\ Agent.check_calendar_availability demo_world "what about next week"
     = Agent.check_calendar_availability demo_world "tomorrow"
  /\ Agent.check_calendar_availability demo_world "Today or Friday"
     = Agent.check_calendar_availability demo_world "today".
Proof.
  split; [|split].
  - apply (proj1 (availability_day_precedence demo_world "Am I free TODAY or tomorrow?")).
    left. exists "tomorrow". split; reflexivity.
  - apply (proj1 (availability_day_precedence demo_world "what about next week")).
    right. split; rewrite contains_nocase_iff; vm_compute; discriminate.
  - apply (proj1 (proj2 (availability_day_precedence demo_world "Today or Friday"))).
    + rewrite contains_nocase_iff. vm_compute. discriminate.
    + exists "Today". split; reflexivity.
Defined.

Lemma weekday_range (dt : datetime) : 0 <= weekday dt <= 6.
Proof. unfold weekday. Z.to_euclidean_division_equations. lia. Qed.

(** X13. "friday": the weekday comes from a first reading of the clock
    and the days are added to a second one.  The day reported on is
    strictly after the day of the second reading and at most seven days
    ahead, at its time of day.  When both readings fall on the same day,
    it is a Friday, and asked on a Friday the code looks at the Friday of
    the week after, never at today.  When midnight passes between the
    readings, it is a Saturday. *)
Theorem friday_is_the_next_friday (w : World) (date_range : string) :
  time_ok (now_again w) ->
  0 < toordinal (now_again w) -> toordinal (now_again w) + 7 <= MAXORDINAL ->
  ~ contains_nocase "tomorrow" date_range -> ~ contains_nocase "today" date_range ->
  contains_nocase "friday" date_range ->
  exists start_date : datetime,
    start_date_of w date_range = Ok start_date
    /\ toordinal (now_again w) < toordinal start_date <= toordinal (now_again w) + 7
    /\ weekday start_date
       = (4 + (toordinal (now_again w) - toordinal (now w))) mod 7
    /\ (toordinal (now_again w) = toordinal (now w) ->
        weekday start_date = 4
        /\ (weekday (now w) = 4 -> toordinal start_date = toordinal (now w) + 7))
    /\ (toordinal (now_again w) = toordinal (now w) + 1 -> weekday start_date = 5)
    /\ minute_of_day start_date = minute_of_day (now_again w)
    /\ Agent.check_calendar_availability w date_range
       = match availability_report w start_date with
         | Ok s => s
         | Raise e => "Error checking calendar: " ++ py_str e
         end.
Proof.
  intros Ht Hpos Hmax H1 H2 H3.
  rewrite check_calendar_availability_eq.
  rewrite (start_date_of_friday w date_range H1 H2 H3).
  pose proof (weekday_range (now w)) as Hwd.
  set (k := if 4 - weekday (now w) <=? 0 then 4 - weekday (now w) + 7
            else 4 - weekday (now w)).
  assert (Hk : 1 <= k <= 7 /\ (weekday (now w) + k) mod 7 = 4
               /\ (weekday (now w) = 4 -> k = 7)).
  { subst k. destruct (Z.leb_spec (4 - weekday (now w)) 0);
      (split; [lia|]); (split; [Z.to_euclidean_division_equations; lia | lia]). }
  destruct Hk as (Hk & Hmod & Hfri).
  destruct (add_days (now_again w) k Ht ltac:(lia)) as (r & Hr & Hord & Hh & Hmi & _).
  exists r. rewrite Hr. cbn [bind].
  assert (Hw : weekday r = (4 + (toordinal (now_again w) - toordinal (now w))) mod 7).
  { unfold weekday in *. rewrite Hord. revert Hmod.
    Z.to_euclidean_division_equations. lia. }
  split; [reflexivity|]. split; [lia|]. split; [exact Hw|].
  split; [|split; [|split]].
  - intros E. rewrite Hw, E. split.
    + replace (4 + (toordinal (now w) - toordinal (now w))) with 4 by lia.
      reflexivity.
    + intros F. rewrite Hord, (Hfri F). lia.
  - intros E. rewrite Hw, E.
    replace (4 + (toordinal (now w) + 1 - toordinal (now w))) with 5 by lia.
    reflexivity.
  - unfold minute_of_day. now rewrite Hh, Hmi.
  - reflexivity.
Qed.

Lemma friday_is_the_next_friday_witness :
  (exists start_date : datetime,
      start_date_of demo_world "Is FRIDAY open?" = Ok start_date
      /\ weekday start_date = 4
      /\ toordinal (now demo_world) < toordinal start_date
         <= toordinal (now demo_world) + 7)
  /\ (exists start_date : datetime,
        start_date_of (world_across (mkdt 2024 1 4 23 59 59 999999)
                                    (mkdt 2024 1 5 0 0 0 1))
                      "Is FRIDAY open?" = Ok start_date
        /\ weekday start_date = 5).
Proof.
  split.
  - destruct (friday_is_the_next_friday demo_world "Is FRIDAY open?")
      as (d & H1 & H2 & _ & H3 & _).
    + vm_compute. repeat split; discriminate.
    + vm_compute. reflexivity.
    + vm_compute. discriminate.
    + rewrite contains_nocase_iff. vm_compute. discriminate.
    + rewrite contains_nocase_iff. vm_compute. discriminate.
    + exists "FRIDAY". split; reflexivity.
    + exists d. split; [exact H1|]. split; [apply H3; reflexivity | exact H2].
  - destruct (friday_is_the_next_friday
                (world_across (mkdt 2024 1 4 23 59 59 999999) (mkdt 2024 1 5 0 0 0 1))
                "Is FRIDAY open?")
      as (d & H1 & _ & _ & _ & H4 & _).
    + vm_compute. repeat split; discriminate.
    + vm_compute. reflexivity.
    + vm_compute. discriminate.
    + rewrite contains_nocase_iff. vm_compute. discriminate.
    + rewrite contains_nocase_iff. vm_compute. discriminate.
    + exists "FRIDAY". split; reflexivity.
    + exists d. split; [exact H1|]. apply H4. vm_compute. reflexivity.
Defined.

Lemma append_assoc (a b c : string) : ((a ++ b) ++ c = a ++ (b ++ c))%string.
Proof.
  induction a as [|x a IH]; [reflexivity|].
  change (String x ((a ++ b) ++ c) = String x (a ++ (b ++ c)))%string.
  now rewrite IH.
Qed.

Lemma availability_report_mock (w : World) (start_date : datetime) :
  service w = None ->
  time_ok start_date -> 0 < toordinal start_date < MAXORDINAL ->
  availability_report w start_date
  = let events := Calendar._get_mock_events start_date start_date in
    match events with
    | [] =>
        Ok ("No existing events found for " ++ fmt_A_B_d start_date
            ++ ". You have full availability!")
    | _ =>
        let* event_list :=
          mapM (fun event =>
                  let* start_time := parse w (Calendar.start event) in
                  let* end_time := parse w (Calendar.end_ event) in
                  Ok ("- " ++ Calendar.title event ++ ": "
                      ++ fmt_I_M_p start_time ++ " - " ++ fmt_I_M_p end_time))
               events in
        Ok ("Existing events for " ++ fmt_A_B_d start_date ++ ":" ++ PyStr.nl
            ++ PyStr.join_lines event_list)
    end.
Proof.
  intros Hs Ht [Hpos Hmax].
  destruct (add_hours start_date 12 Ht ltac:(lia) Hpos Hmax) as (e & He & _).
  unfold availability_report. rewrite He. cbn [bind].
  unfold Calendar.get_events. rewrite Hs. reflexivity.
Qed.

(** X14. Without provider credentials, a day that falls on a Saturday or
    Sunday is reported as fully available: the answer is "No existing
    events found for <day>. You have full availability!", whatever the
    parser would do. *)
Theorem weekend_is_fully_available (w : World) (date_range : string)
        (start_date : datetime) :
  service w = None ->
  start_date_of w date_range = Ok start_date ->
  time_ok start_date -> 0 < toordinal start_date < MAXORDINAL ->
  5 <= weekday start_date ->
  Agent.check_calendar_availability w date_range
  = "No existing events found for " ++ fmt_A_B_d start_date
    ++ ". You have full availability!".
Proof.
  intros Hs Hd Ht Hord Hwd.
  rewrite check_calendar_availability_eq, Hd. cbn [bind].
  rewrite (availability_report_mock w start_date Hs Ht Hord). cbv zeta.
  rewrite mock_events_eq.
  destruct (Z.ltb_spec (weekday start_date) 5); [lia | reflexivity].
Qed.

Lemma weekend_is_fully_available_witness :
  Agent.check_calendar_availability (world_at (mkdt 2024 1 6 8 15 0 0)) "free today?"
  = "No existing events found for Saturday, January 06. You have full availability!".
Proof.
  apply (weekend_is_fully_available (world_at (mkdt 2024 1 6 8 15 0 0)) "free today?"
           (mkdt 2024 1 6 8 15 0 0)).
  - reflexivity.
  - reflexivity.
  - vm_compute. repeat split; discriminate.
  - vm_compute. split; reflexivity.
  - vm_compute. discriminate.
Defined.

(** X15. Without provider credentials, a day from Monday to Friday is
    reported with the two synthetic events, each time read back by the
    parser from the ISO string [_get_mock_events] wrote: when the parser
    returns the hour and minute written there, the answer lists
    "Team Standup: 10:00 AM - 10:30 AM" and
    "Client Review: 03:00 PM - 04:00 PM" under the day's name. *)
Theorem weekday_lists_two_events (w : World) (date_range : string)
        (start_date p1 p2 p3 p4 : datetime) :
  service w = None ->
  start_date_of w date_range = Ok start_date ->
  time_ok start_date -> 0 < toordinal start_date < MAXORDINAL ->
  weekday start_date < 5 ->
  parse w (Some (isoformat (on_date start_date 10 0))) = Ok p1 ->
  parse w (Some (isoformat (on_date start_date 10 30))) = Ok p2 ->
  parse w (Some (isoformat (on_date start_date 15 0))) = Ok p3 ->
  parse w (Some (isoformat (on_date start_date 16 0))) = Ok p4 ->
  Agent.check_calendar_availability w date_range
  = "Existing events for " ++ fmt_A_B_d start_date ++ ":" ++ PyStr.nl
    ++ "- Team Standup: " ++ fmt_I_M_p p1 ++ " - " ++ fmt_I_M_p p2 ++ PyStr.nl
    ++ "- Client Review: " ++ fmt_I_M_p p3 ++ " - " ++ fmt_I_M_p p4
  /\ (minute_of_day p1 = 600 -> minute_of_day p2 = 630 ->
      minute_of_day p3 = 900 -> minute_of_day p4 = 960 ->
      0 <= minute p1 < 60 -> 0 <= minute p2 < 60 ->
      0 <= minute p3 < 60 -> 0 <= minute p4 < 60 ->
      Agent.check_calendar_availability w date_range
      = "Existing events for " ++ fmt_A_B_d start_date ++ ":" ++ PyStr.nl
        ++ "- Team Standup: 10:00 AM - 10:30 AM" ++ PyStr.nl
        ++ "- Client Review: 03:00 PM - 04:00 PM").
Proof.
  intros Hs Hd Ht Hord Hwd H1 H2 H3 H4.
  assert (E : Agent.check_calendar_availability w date_range
              = "Existing events for " ++ fmt_A_B_d start_date ++ ":" ++ PyStr.nl
                ++ "- Team Standup: " ++ fmt_I_M_p p1 ++ " - " ++ fmt_I_M_p p2
                ++ PyStr.nl
                ++ "- Client Review: " ++ fmt_I_M_p p3 ++ " - " ++ fmt_I_M_p p4).
  { rewrite check_calendar_availability_eq, Hd. cbn [bind].
    rewrite (availability_report_mock w start_date Hs Ht Hord). cbv zeta.
    rewrite mock_events_eq.
    destruct (Z.ltb_spec (weekday start_date) 5); [|lia].
    cbn [mapM Calendar.start Calendar.end_ Calendar.title].
    rewrite H1, H2, H3, H4. cbn [bind PyStr.join_lines].
    unfold PyStr.nl. rewrite !append_assoc. reflexivity. }
  split; [exact E|].
  intros M1 M2 M3 M4 R1 R2 R3 R4. rewrite E.
  unfold minute_of_day in *.
  assert (hour p1 = 10 /\ minute p1 = 0) as [G1 G1'] by lia.
  assert (hour p2 = 10 /\ minute p2 = 30) as [G2 G2'] by lia.
  assert (hour p3 = 15 /\ minute p3 = 0) as [G3 G3'] by lia.
  assert (hour p4 = 16 /\ minute p4 = 0) as [G4 G4'] by lia.
  unfold fmt_I_M_p. rewrite G1, G1', G2, G2', G3, G3', G4, G4'. reflexivity.
Qed.

Lemma weekday_lists_two_events_witness :
  Agent.check_calendar_availability parsing_world "Anything today?"
  = "Existing events for Monday, January 01:" ++ PyStr.nl
    ++ "- Team Standup: 10:00 AM - 10:30 AM" ++ PyStr.nl
    ++ "- Client Review: 03:00 PM - 04:00 PM".
Proof.
  apply (proj2 (weekday_lists_two_events parsing_world "Anything today?"
                  (mkdt 2024 1 1 12 34 56 789)
                  (mkdt 2024 1 1 10 0 0 0) (mkdt 2024 1 1 10 30 0 0)
                  (mkdt 2024 1 1 15 0 0 0) (mkdt 2024 1 1 16 0 0 0)
                  eq_refl eq_refl
                  ltac:(vm_compute; repeat split; discriminate)
                  ltac:(vm_compute; split; reflexivity)
                  ltac:(vm_compute; reflexivity)
                  eq_refl eq_refl eq_refl eq_refl));
    first [reflexivity | vm_compute; split; [discriminate | reflexivity]].
Defined.

(** X16. A parser that rejects the start time of the first event that
    [get_events] returned, or its end time after reading the start time,
    turns the whole report into "Error checking calendar: <message>",
    whether the event is a synthetic one or the provider's: no event is
    listed, and nothing is raised. *)
Theorem parser_failure_is_reported (w : World) (date_range : string)
        (start_date end_date : datetime) (first : Calendar.Event)
        (others : list Calendar.Event) (e : exn) :
  start_date_of w date_range = Ok start_date ->
  add start_date (hours 12) = Ok end_date ->
  Calendar.get_events w start_date end_date = first :: others ->
  (parse w (Calendar.start first) = Raise e
   \/ ((exists t, parse w (Calendar.start first) = Ok t)
       /\ parse w (Calendar.end_ first) = Raise e)) ->
  Agent.check_calendar_availability w date_range
  = "Error checking calendar: " ++ py_str e.
Proof.
  intros Hd He Hev Hp.
  rewrite check_calendar_availability_eq, Hd. cbn [bind].
  unfold availability_report. rewrite He. cbn [bind]. rewrite Hev.
  cbn [mapM]. destruct Hp as [Hp | [[t Ht] Hp]].
  - rewrite Hp. reflexivity.
  - rewrite Ht. cbn [bind]. rewrite Hp. reflexivity.
Qed.

Lemma parser_failure_is_reported_witness :
  Agent.check_calendar_availability demo_world "Anything today?"
  = "Error checking calendar: Unknown string format"
  /\ Agent.check_calendar_availability
       (world_with (answering_provider (Some [lunch]) (Raise (OtherError "unused"))))
       "Anything today?"
     = "Error checking calendar: Unknown string format".
Proof.
  split.
  - apply (parser_failure_is_reported demo_world "Anything today?"
             (mkdt 2024 1 1 12 34 56 789) (mkdt 2024 1 2 0 34 56 789)
             (Calendar.mkEvent "mock_1_20240101" "Team Standup"
                (Some "2024-01-01T10:00:00") (Some "2024-01-01T10:30:00") "confirmed")
             [Calendar.mkEvent "mock_2_20240101" "Client Review"
                (Some "2024-01-01T15:00:00") (Some "2024-01-01T16:00:00") "confirmed"]
             (OtherError "Unknown string format")).
    + reflexivity.
    + vm_compute. reflexivity.
    + vm_compute. reflexivity.
    + left. reflexivity.
  - apply (parser_failure_is_reported
             (world_with (answering_provider (Some [lunch])
                                             (Raise (OtherError "unused"))))
             "Anything today?"
             (mkdt 2024 1 1 12 34 56 789) (mkdt 2024 1 2 0 34 56 789)
             (Calendar.mkEvent "ev1" "Lunch" (Some "2024-01-02T12:00:00Z")
                               (Some "2024-01-02T13:00:00Z") "confirmed")
             [] (OtherError "Unknown string format")).
    + reflexivity.
    + vm_compute. reflexivity.
    + vm_compute. reflexivity.
    + left. reflexivity.
Defined.

(** ** [suggest_time_slots] and [book_appointment] *)

(** X17. A preference text with neither "afternoon" nor "morning" gets
    the third template: three slots on the day after today, at 11:00,
    14:00 and 16:00, listed as 11:00 AM, 02:00 PM and 04:00 PM. *)
Theorem suggest_slots_default (w : World) (preferences : string) :
  time_ok (now w) -> 0 < toordinal (now w) + 1 <= MAXORDINAL ->
  ~ contains_nocase "afternoon" preferences ->
  ~ contains_nocase "morning" preferences ->
  exists base : datetime,
    add (now w) (days 1) = Ok base
    /\ toordinal base = toordinal (now w) + 1
    /\ Agent.slots_of base preferences
       = [replace_hm base 11 0; replace_hm base 14 0; replace_hm base 16 0]
    /\ Agent.suggest_time_slots w preferences
       = slots_text base "11:00 AM" "02:00 PM" "04:00 PM".
Proof.
  intros Ht Hord Ha Hm.
  destruct (add_days (now w) 1 Ht Hord) as (base & Hadd & Hb & _).
  exists base. split; [assumption|]. split; [assumption|].
  rewrite (suggest_time_slots_eq w preferences base Hadd).
  apply not_contains_nocase in Ha, Hm.
  unfold Agent.slots_of, Agent.slot_hours. rewrite Ha, Hm.
  split; reflexivity.
Qed.

Lemma suggest_slots_default_witness :
  Agent.suggest_time_slots demo_world "any time works"
  = "Here are some available time slots:" ++ PyStr.nl
    ++ "1. Tuesday, January 02 at 11:00 AM" ++ PyStr.nl
    ++ "2. Tuesday, January 02 at 02:00 PM" ++ PyStr.nl
    ++ "3. Tuesday, January 02 at 04:00 PM".
Proof.
  destruct (suggest_slots_default demo_world "any time works")
    as (base & Hadd & _ & _ & Htext).
  - vm_compute. repeat split; discriminate.
  - vm_compute. split; [reflexivity | discriminate].
  - rewrite contains_nocase_iff. vm_compute. discriminate.
  - rewrite contains_nocase_iff. vm_compute. discriminate.
  - rewrite Htext. injection Hadd as <-. vm_compute. reflexivity.
Defined.

Lemma add_days_overflow (dt : datetime) (k : Z) :
  time_ok dt -> MAXORDINAL < toordinal dt + k ->
  add dt (days k) = Raise (OverflowError "date value out of range").
Proof.
  intros (Hh & Hmi & Hs & Hus) Hrange.
  unfold add, days. cbn [td_days td_seconds td_micros].
  assert (E0 : (microsecond dt + 0) / 1000000 = 0)
    by (Z.to_euclidean_division_equations; lia).
  rewrite E0.
  set (secs := hour dt * 3600 + minute dt * 60 + second dt + 0 + 0).
  assert (E1 : secs / 86400 = 0)
    by (subst secs; Z.to_euclidean_division_equations; lia).
  rewrite E1.
  assert (Hout : (toordinal dt + k + 0 <=? MAXORDINAL) = false)
    by (apply Z.leb_gt; lia).
  rewrite Hout, andb_false_r. reflexivity.
Qed.

(** X18. On the last day of the calendar, 31 December 9999, there is no
    tomorrow: adding the day overflows and each tool answers with its own
    error text, "date value out of range"; none raises. *)
Theorem no_tomorrow_on_the_last_day (w : World) (text : string) :
  time_ok (now w) -> toordinal (now w) = MAXORDINAL ->
  Agent.suggest_time_slots w text = "Error suggesting slots: date value out of range"
  /\ Agent.book_appointment w text
     = "Error booking appointment: date value out of range"
  /\ (contains_nocase "tomorrow" text
      \/ (~ contains_nocase "today" text /\ ~ contains_nocase "friday" text) ->
      Agent.check_calendar_availability w text
      = "Error checking calendar: date value out of range").
Proof.
  intros Ht Hord.
  pose proof (add_days_overflow (now w) 1 Ht ltac:(lia)) as Hov.
  split; [|split].
  - unfold Agent.suggest_time_slots. rewrite Hov. reflexivity.
  - unfold Agent.book_appointment. rewrite Hov. reflexivity.
  - intros H. rewrite check_calendar_availability_eq.
    rewrite (start_date_of_tomorrow w text H), Hov. reflexivity.
Qed.

Lemma no_tomorrow_on_the_last_day_witness :
  Agent.suggest_time_slots (world_at (mkdt 9999 12 31 9 0 0 0)) "morning"
  = "Error suggesting slots: date value out of range".
Proof.
  apply (proj1 (no_tomorrow_on_the_last_day
                  (world_at (mkdt 9999 12 31 9 0 0 0)) "morning"
                  ltac:(vm_compute; repeat split; discriminate)
                  ltac:(vm_compute; reflexivity))).
Defined.

Lemma add_one_hour_at_two (tomorrow : datetime) :
  0 < toordinal tomorrow <= MAXORDINAL ->
  exists end_time : datetime,
    add (replace_hmsu tomorrow 14 0 0 0) (hours 1) = Ok end_time
    /\ hour end_time = 15 /\ minute end_time = 0.
Proof.
  intros [Hpos Hmax]. unfold add, hours.
  cbn [td_days td_seconds td_micros hour minute second microsecond replace_hmsu].
  change (toordinal (replace_hmsu tomorrow 14 0 0 0)) with (toordinal tomorrow).
  change (1 * 3600 / 86400) with 0. change ((1 * 3600) mod 86400) with 3600.
  change ((0 + 0) / 1000000) with 0. change ((0 + 0) mod 1000000) with 0.
  change (14 * 3600 + 0 * 60 + 0 + 3600 + 0) with 54000.
  change (54000 / 86400) with 0. change (54000 mod 86400) with 54000.
  assert (Hin : (0 <? toordinal tomorrow + 0 + 0)
                && (toordinal tomorrow + 0 + 0 <=? MAXORDINAL) = true).
  { apply andb_true_iff. split; [apply Z.ltb_lt | apply Z.leb_le]; lia. }
  rewrite Hin.
  destruct (ord2ymd (toordinal tomorrow + 0 + 0)) as [[y m] d].
  eexists. split; [reflexivity|]. split; reflexivity.
Qed.

(** X19. Without provider credentials and away from the end of the
    calendar, [book_appointment] always books the same meeting, whatever
    [details] says: "Scheduled Meeting" on the day after today from
    02:00 PM to 03:00 PM, with the event id "mock_event_<timestamp of the
    start>". *)
Theorem booking_is_tomorrow_at_two (w : World) (details : string) :
  service w = None ->
  time_ok (now w) -> 0 < toordinal (now w) + 1 <= MAXORDINAL ->
  exists tomorrow : datetime,
    add (now w) (days 1) = Ok tomorrow
    /\ toordinal tomorrow = toordinal (now w) + 1
    /\ forall ts : Z,
         timestamp w (replace_hmsu tomorrow 14 0 0 0) = Ok ts ->
         Agent.book_appointment w details
         = "âœ… Appointment booked successfully!" ++ PyStr.nl
           ++ "Title: Scheduled Meeting" ++ PyStr.nl
           ++ "Time: " ++ fmt_A_B_d tomorrow ++ " at 02:00 PM - 03:00 PM" ++ PyStr.nl
           ++ "Event ID: mock_event_" ++ PyStr.dec ts.
Proof.
  intros Hs Ht Hord.
  destruct (add_days (now w) 1 Ht Hord) as (tomorrow & Hadd & Hb & _).
  exists tomorrow. split; [assumption|]. split; [assumption|].
  intros ts Hts.
  destruct (add_one_hour_at_two tomorrow ltac:(lia)) as (end_time & He & Hh & Hm).
  unfold Agent.book_appointment. rewrite Hadd. cbn [bind]. rewrite He. cbn [bind].
  unfold Calendar.create_event. rewrite Hs, Hts. cbn [bind Calendar.title Calendar.id].
  unfold fmt_slot, fmt_I_M_p. rewrite Hh, Hm.
  cbn [hour minute replace_hmsu].
  change (fmt_A_B_d (replace_hmsu tomorrow 14 0 0 0)) with (fmt_A_B_d tomorrow).
  unfold PyStr.nl. rewrite !append_assoc. reflexivity.
Qed.

Lemma booking_is_tomorrow_at_two_witness :
  exists tomorrow : datetime,
    add (now demo_world) (days 1) = Ok tomorrow
    /\ toordinal tomorrow = toordinal (now demo_world) + 1
    /\ forall ts : Z,
         timestamp demo_world (replace_hmsu tomorrow 14 0 0 0) = Ok ts ->
         Agent.book_appointment demo_world "Friday at 9 with Ana"
         = "âœ… Appointment booked successfully!" ++ PyStr.nl
           ++ "Title: Scheduled Meeting" ++ PyStr.nl
           ++ "Time: " ++ fmt_A_B_d tomorrow ++ " at 02:00 PM - 03:00 PM" ++ PyStr.nl
           ++ "Event ID: mock_event_" ++ PyStr.dec ts.
Proof.
  apply (booking_is_tomorrow_at_two demo_world "Friday at 9 with Ana" eq_refl).
  - vm_compute. repeat split; discriminate.
  - vm_compute. split; [reflexivity | discriminate].
Defined.

(** X20. With a live session whose insert fails, the failure reaches the
    user as text: [book_appointment] answers "Error booking appointment: "
    followed by the text of the [HTTPException] that [create_event]
    raised (status 500, "Failed to create event: <provider's message>");
    no success line is printed. *)
Theorem booking_failure_is_reported (w : World) (svc : Provider) (details : string)
        (e : exn) :
  service w = Some svc ->
  time_ok (now w) -> 0 < toordinal (now w) + 1 <= MAXORDINAL ->
  (forall start_time end_time,
     events_insert svc
       (Calendar.event_body "Scheduled Meeting" start_time end_time
                            "Meeting booked through TailorTalk agent")
     = Raise e) ->
  Agent.book_appointment w details
  = "Error booking appointment: "
    ++ py_str (HTTPException 500 ("Failed to create event: " ++ py_str e)).
Proof.
  intros Hs Ht Hord Hins.
  destruct (add_days (now w) 1 Ht Hord) as (tomorrow & Hadd & Hb & _).
  destruct (add_one_hour_at_two tomorrow ltac:(lia)) as (end_time & He & _).
  unfold Agent.book_appointment. rewrite Hadd. cbn [bind]. rewrite He. cbn [bind].
  unfold Calendar.create_event. rewrite Hs, Hins. reflexivity.
Qed.

Lemma booking_failure_is_reported_witness :
  Agent.book_appointment outage_world "yes, confirm it"
  = "Error booking appointment: 500: Failed to create event: HttpError 503".
Proof.
  apply (booking_failure_is_reported outage_world failing_provider "yes, confirm it"
           (OtherError "HttpError 503") eq_refl).
  - vm_compute. repeat split; discriminate.
  - vm_compute. split; [reflexivity | discriminate].
  - reflexivity.
Defined.

(** ** [call_tool] *)

Lemma keep_same {A : Type} (v : option A) : Agent.keep v v = v.
Proof. now destruct v. Qed.

(** X21. Whatever the state, running [call_tool] and merging its result
    into the state appends exactly one AI message without tool calls,
    leaves [user_intent] as it was, and leaves [step] as it was unless the
    slots were suggested, when [step] becomes "suggested". *)
Theorem call_tool_appends_one_reply (w : World) (state : Agent.AgentState) :
  let state' := Agent.reduce state (Agent.call_tool w state) in
  (exists c, Agent.messages state'
             = (Agent.messages state ++ [Agent.AIMessage c])%list)
  /\ Agent.should_continue state' = Ok "end"
  /\ Agent.user_intent state' = Agent.user_intent state
  /\ (Agent.step state' = Agent.step state
      \/ (Agent.user_intent state = Some "booking"
          /\ Agent.step state' = Some "suggested")).
Proof.
  cbv zeta. unfold Agent.call_tool, Agent.reduce.
  destruct (Calendar.get_default (Agent.user_intent state) "" =? "availability")%string.
  { cbn [Agent.messages Agent.user_intent Agent.step]. rewrite !keep_same.
    split; [eauto|]. split; [|split; auto].
    unfold Agent.should_continue. cbn [Agent.messages]. now rewrite last_msg_snoc. }
  destruct (Calendar.get_default (Agent.user_intent state) "" =? "booking")%string
    eqn:Eb.
  - destruct (negb (PyStr.str_in "suggest" (Calendar.get_default (Agent.step state) "")));
      cbn [andb].
    + cbn [Agent.messages Agent.user_intent Agent.step Agent.keep].
      rewrite keep_same.
      split; [eauto|]. split; [|split; [reflexivity|]].
      * unfold Agent.should_continue. cbn [Agent.messages]. now rewrite last_msg_snoc.
      * right. split; [|reflexivity].
        apply String.eqb_eq in Eb. destruct (Agent.user_intent state) as [i|];
          cbn in Eb; [now subst | discriminate].
    + destruct (Calendar.get_default (Agent.user_intent state) "" =? "confirmation")%string;
        cbn [Agent.messages Agent.user_intent Agent.step]; rewrite !keep_same;
        (split; [eauto|]); (split; [|split; auto]);
        unfold Agent.should_continue; cbn [Agent.messages]; now rewrite last_msg_snoc.
  - cbn [andb].
    destruct (Calendar.get_default (Agent.user_intent state) "" =? "confirmation")%string;
      cbn [Agent.messages Agent.user_intent Agent.step]; rewrite !keep_same;
      (split; [eauto|]); (split; [|split; auto]);
      unfold Agent.should_continue; cbn [Agent.messages]; now rewrite last_msg_snoc.
Qed.

(** X22. The guard on [step]: with the intent "booking", the first run of
    [call_tool] answers with the slots suggested for the message before
    the last and sets [step] to "suggested"; a second run on the state so
    obtained suggests nothing and answers "I'm ready to help with your
    scheduling needs!", and [step] stays "suggested". *)
Theorem slots_are_suggested_once (w : World) (state : Agent.AgentState) :
  Agent.user_intent state = Some "booking" ->
  PyStr.str_in "suggest" (Calendar.get_default (Agent.step state) "") = false ->
  let state1 := Agent.reduce state (Agent.call_tool w state) in
  let state2 := Agent.reduce state1 (Agent.call_tool w state1) in
  Agent.messages (Agent.call_tool w state)
  = [Agent.AIMessage
       (Agent.suggest_time_slots w
          match Agent.last_but_one (Agent.messages state) with
          | Some m => Agent.content m
          | None => ""
          end)]
  /\ Agent.step state1 = Some "suggested"
  /\ Agent.messages (Agent.call_tool w state1)
     = [Agent.AIMessage "I'm ready to help with your scheduling needs!"]
  /\ Agent.step state2 = Some "suggested".
Proof.
  intros Hi Hs. cbv zeta.
  assert (E1 : Agent.call_tool w state
               = {| Agent.messages :=
                      [Agent.AIMessage
                         (Agent.suggest_time_slots w
                            match Agent.last_but_one (Agent.messages state) with
                            | Some m => Agent.content m
                            | None => ""
                            end)];
                    Agent.user_intent := Agent.user_intent state;
                    Agent.step := Some "suggested" |}).
  { unfold Agent.call_tool. rewrite Hi, Hs. reflexivity. }
  rewrite E1. unfold Agent.reduce at 1 2 3.
  cbn [Agent.messages Agent.user_intent Agent.step Agent.keep].
  rewrite keep_same, Hi.
  split; [reflexivity|]. split; [reflexivity|].
  split; reflexivity.
Qed.

Lemma slots_are_suggested_once_witness :
  let state := Agent.reduce (Api.initial_state "book a call")
                            (Agent.call_model (Api.initial_state "book a call")) in
  let state1 := Agent.reduce state (Agent.call_tool demo_world state) in
  Agent.step state1 = Some "suggested"
  /\ Agent.messages (Agent.call_tool demo_world state1)
     = [Agent.AIMessage "I'm ready to help with your scheduling needs!"].
Proof.
  cbv zeta.
  destruct (slots_are_suggested_once demo_world
              (Agent.reduce (Api.initial_state "book a call")
                            (Agent.call_model (Api.initial_state "book a call")))
              eq_refl eq_refl)
    as (_ & H1 & H2 & _).
  split; [exact H1 | exact H2].
Defined.

(** X23. [call_tool] after [call_model] on the state the endpoint builds:
    the tool is chosen by the intent [call_model] wrote and is given the
    user's message, not the reply of [call_model], which is the last
    message by then. *)
Theorem action_after_agent_reads_user_message (w : World) (message : string) :
  let state := Agent.reduce (Api.initial_state message)
                            (Agent.call_model (Api.initial_state message)) in
  (Agent.detect_intent message = "availability" ->
   Agent.messages (Agent.call_tool w state)
   = [Agent.AIMessage (Agent.check_calendar_availability w message)])
  /\ (Agent.detect_intent message = "booking" ->
      Agent.messages (Agent.call_tool w state)
      = [Agent.AIMessage (Agent.suggest_time_slots w message)])
  /\ (Agent.detect_intent message = "confirmation" ->
      Agent.messages (Agent.call_tool w state)
      = [Agent.AIMessage (Agent.book_appointment w message)])
  /\ (Agent.detect_intent message = "unknown" ->
      Agent.messages (Agent.call_tool w state)
      = [Agent.AIMessage "I'm ready to help with your scheduling needs!"]).
Proof.
  cbv zeta. rewrite call_model_initial. unfold Agent.call_tool.
  cbn [Agent.messages Agent.user_intent Agent.step Calendar.get_default
       Agent.last_but_one rev app nth_error Agent.content Agent.HumanMessage].
  repeat split; intros ->; reflexivity.
Qed.

Lemma action_after_agent_reads_user_message_witness :
  Agent.messages
    (Agent.call_tool demo_world
       (Agent.reduce (Api.initial_state "yes, confirm it")
                     (Agent.call_model (Api.initial_state "yes, confirm it"))))
  = [Agent.AIMessage (Agent.book_appointment demo_world "yes, confirm it")].
Proof.
  apply (proj1 (proj2 (proj2
           (action_after_agent_reads_user_message demo_world "yes, confirm it")))).
  reflexivity.
Defined.

(* ================================================================== *)
(** * The client *)

(** X24. A run of the script in which a non-empty text is sent (and the
    conversation is not reset) appends exactly two entries to the
    history, the user's text and then one bot entry, whatever the request
    did, keeps the session id, and asks for a rerun.  A run without a
    submission, or with an empty text, leaves the history as it was,
    shows no notice and asks for no rerun. *)
Theorem submission_appends_two_turns (env : Client.Env) (widgets : Client.Widgets)
        (st0 : Client.SessionState) :
  Client.reset_button widgets = false ->
  (Client.submit_button widgets = true -> Client.user_input widgets <> "" ->
   exists bot,
     Client.messages (Client.state (Client.script env widgets st0))
     = Some (Calendar.get_default (Client.messages st0) []
             ++ [Client.user_turn (Client.user_input widgets); bot])%list
     /\ Client.role bot = "bot"
     /\ Client.rerun (Client.script env widgets st0) = true
     /\ (forall sid, Client.session_id st0 = Some sid ->
           Client.session_id (Client.state (Client.script env widgets st0))
           = Some sid))
  /\ (Client.submit_button widgets = false \/ Client.user_input widgets = "" ->
      Client.messages (Client.state (Client.script env widgets st0))
      = Some (Calendar.get_default (Client.messages st0) [])
      /\ Client.notices (Client.script env widgets st0) = []
      /\ Client.rerun (Client.script env widgets st0) = false).
Proof.
  intros Hr. unfold Client.script. rewrite Hr. split.
  - intros Hs Hu. rewrite Hs.
    destruct (String.eqb_spec (Client.user_input widgets) "") as [E|_];
      [contradiction|].
    cbn [andb negb].
    assert (Hbot : forall o, Client.role (fst (Client.answer o)) = "bot").
    { intros o. unfold Client.answer, Client.unexpected.
      destruct o as [code body | [msg | e]]; [|reflexivity|reflexivity].
      destruct (code =? 200); [|reflexivity].
      destruct body as [result|e]; [|reflexivity]. cbn [bind].
      destruct (Api.getitem result "response"); reflexivity. }
    destruct (Client.session_id st0) as [sid|].
    + specialize (Hbot (Client.post env
         (Calendar.get_default (Client.api_url_box widgets)
            (Calendar.get_default (Client.api_url st0) "http://localhost:8000")
          ++ "/chat") (Client.user_input widgets) sid)).
      destruct (Client.answer _) as [bot shown].
      exists bot. cbn [Client.state Client.messages Client.rerun Client.session_id].
      rewrite <- app_assoc. repeat split; [exact Hbot | now intros ? [= <-]].
    + specialize (Hbot (Client.post env
         (Calendar.get_default (Client.api_url_box widgets)
            (Calendar.get_default (Client.api_url st0) "http://localhost:8000")
          ++ "/chat") (Client.user_input widgets) (Client.uuid4 env 0%nat))).
      destruct (Client.answer _) as [bot shown].
      exists bot. cbn [Client.state Client.messages Client.rerun Client.session_id].
      rewrite <- app_assoc. repeat split; [exact Hbot | discriminate].
  - intros H.
    assert (E : Client.submit_button widgets
                && negb (Client.user_input widgets =? "")%string = false).
    { destruct H as [-> | ->]; [reflexivity | apply andb_false_r]. }
    rewrite E. destruct (Client.session_id st0); repeat split.
Qed.

Lemma submission_appends_two_turns_witness :
  exists bot,
    Client.messages
      (Client.state
         (Client.script
            (Client.mkEnv uuids
               (fun _ _ _ => Client.Failed (Client.ConnectionError "refused")))
            (sending "hello") open_session))
    = Some [Client.user_turn "hello"; bot]
    /\ Client.role bot = "bot".
Proof.
  destruct (proj1 (submission_appends_two_turns
                     (Client.mkEnv uuids
                        (fun _ _ _ => Client.Failed (Client.ConnectionError "refused")))
                     (sending "hello") open_session eq_refl)
                  eq_refl ltac:(discriminate))
    as (bot & H1 & H2 & _).
  exists bot. split; [exact H1 | exact H2].
Defined.

Lemma answer_ok_object (fields : list (string * json)) :
  Client.answer (Client.Responded 200 (Ok (JObj fields)))
  = match Api.lookup_last "response" fields with
    | Some reply =>
        (Client.bot_turn reply,
         if Api.truthy (Client.dict_get_or_none fields "booking_confirmed")
         then [Client.success "🎉 Appointment booked successfully!"; Client.balloons]
         else [])
    | None => Client.unexpected (KeyError "response")
    end.
Proof.
  unfold Client.answer. change (200 =? 200) with true. cbv iota.
  cbn [bind Api.getitem].
  destruct (Api.lookup_last "response" fields); reflexivity.
Qed.

(** X25. The client announces "Appointment booked successfully!" exactly
    when the request came back with status 200 and a JSON object that has
    a ["response"] key and a truthy ["booking_confirmed"]; the text of the
    response plays no part. *)
Theorem booking_notice_iff (outcome : Client.Outcome) :
  In (Client.success "🎉 Appointment booked successfully!")
     (snd (Client.answer outcome))
  <-> exists fields reply flag,
        outcome = Client.Responded 200 (Ok (JObj fields))
        /\ Api.lookup_last "response" fields = Some reply
        /\ Api.lookup_last "booking_confirmed" fields = Some flag
        /\ Api.truthy flag = true.
Proof.
  split.
  - destruct outcome as [code body | [msg | e]];
      [|cbn; intros [H|[]]; discriminate|cbn; intros [H|[]]; discriminate].
    destruct (Z.eqb_spec code 200) as [-> | Hne].
    + destruct body as [result|e]; [|cbn; intros [H|[]]; discriminate].
      destruct result as [|b|z|s|items|fields];
        try (cbn; intros [H|[]]; discriminate).
      rewrite answer_ok_object.
      destruct (Api.lookup_last "response" fields) as [reply|] eqn:Er;
        [|cbn; intros [H|[]]; discriminate].
      cbn [snd]. unfold Client.dict_get_or_none.
      destruct (Api.lookup_last "booking_confirmed" fields) as [flag|] eqn:Ef;
        [|cbn; intros []].
      destruct (Api.truthy flag) eqn:Et; [|cbn; intros []].
      intros _. exists fields, reply, flag. auto.
    + unfold Client.answer. destruct (Z.eqb_spec code 200); [contradiction|].
      cbn. intros [H|[]]; discriminate.
  - intros (fields & reply & flag & -> & Hr & Hf & Ht).
    rewrite answer_ok_object, Hr. cbn [snd].
    unfold Client.dict_get_or_none. rewrite Hf, Ht. left. reflexivity.
Qed.

(** X26. A body of status 200 that is an object without ["response"] is
    answered with "Sorry, I encountered an unexpected error: 'response'";
    no booking is announced, even when ["booking_confirmed"] is true. *)
Theorem missing_response_key (fields : list (string * json)) :
  Api.lookup_last "response" fields = None ->
  Client.answer (Client.Responded 200 (Ok (JObj fields)))
  = (Client.bot_turn (JStr "Sorry, I encountered an unexpected error: 'response'"),
     [Client.error "Error: 'response'"]).
Proof.
  intros H. rewrite answer_ok_object, H. reflexivity.
Qed.

Lemma missing_response_key_witness :
  Client.answer
    (Client.Responded 200 (Ok (JObj [("booking_confirmed", JBool true)])))
  = (Client.bot_turn (JStr "Sorry, I encountered an unexpected error: 'response'"),
     [Client.error "Error: 'response'"]).
Proof.
  apply (missing_response_key [("booking_confirmed", JBool true)]). reflexivity.
Defined.

(** X27. A status other than 200 hides the body: the bot entry is the
    fixed "Sorry, I encountered an error. Please try again." and the
    notice gives only the status code, whatever the body says. *)
Theorem error_status_hides_body (status_code : Z) (json_body : Result json) :
  status_code <> 200 ->
  Client.answer (Client.Responded status_code json_body)
  = (Client.bot_turn (JStr "Sorry, I encountered an error. Please try again."),
     [Client.error ("API Error: " ++ PyStr.dec status_code)]).
Proof.
  intros H. unfold Client.answer.
  destruct (Z.eqb_spec status_code 200); [contradiction | reflexivity].
Qed.

Lemma error_status_hides_body_witness :
  Client.answer
    (Client.Responded 500
       (Ok (JObj [("detail", JStr "Failed to create event: HttpError 503")])))
  = (Client.bot_turn (JStr "Sorry, I encountered an error. Please try again."),
     [Client.error "API Error: 500"]).
Proof.
  apply (error_status_hides_body 500
           (Ok (JObj [("detail", JStr "Failed to create event: HttpError 503")]))).
  discriminate.
Defined.

(** X28. "Reset Conversation" empties the history and takes a new session
    id from [uuid.uuid4()]; the run stops there, so a text sent in the
    same run is neither added to the history nor posted. *)
Theorem reset_starts_a_new_session (env : Client.Env) (widgets : Client.Widgets)
        (st0 : Client.SessionState) :
  Client.reset_button widgets = true ->
  Client.messages (Client.state (Client.script env widgets st0)) = Some []
  /\ (exists n, Client.session_id (Client.state (Client.script env widgets st0))
                = Some (Client.uuid4 env n))
  /\ Client.notices (Client.script env widgets st0) = []
  /\ Client.rerun (Client.script env widgets st0) = true
  /\ forall post' submit' text',
       Client.script (Client.mkEnv (Client.uuid4 env) post')
                     (Client.mkWidgets (Client.api_url_box widgets) true submit' text')
                     st0
       = Client.script env widgets st0.
Proof.
  intros H. unfold Client.script. rewrite H.
  cbn [Client.reset_button Client.api_url_box Client.uuid4].
  destruct (Client.session_id st0); cbn [Client.state Client.messages
    Client.session_id Client.notices Client.rerun]; repeat split; eauto.
Qed.

Lemma reset_starts_a_new_session_witness :
  Client.messages
    (Client.state
       (Client.script
          (Client.mkEnv uuids (fun _ _ _ => Client.Failed (Client.ConnectionError "")))
          (Client.mkWidgets None true true "book it")
          (Client.mkSession (Some "5f0c") (Some [Client.user_turn "hi"]) None)))
  = Some [].
Proof.
  apply (proj1 (reset_starts_a_new_session
                  (Client.mkEnv uuids
                     (fun _ _ _ => Client.Failed (Client.ConnectionError "")))
                  (Client.mkWidgets None true true "book it")
                  (Client.mkSession (Some "5f0c") (Some [Client.user_turn "hi"]) None)
                  eq_refl)).
Defined.

(** ** The client against [chat_endpoint] *)

Lemma chat_endpoint_returns {V : Type} (w : World) (sessions : gmap string V)
      (cm : Api.ChatMessage) :
  exists r served,
    Api.chat_endpoint_traced w sessions cm = (Ok (r, served), sessions)
    /\ Api.chat_endpoint w sessions cm = Ok r
    /\ (Api.booking_confirmed r = true ->
        served = Api.ByGraph [Agent.agent]
        /\ Api.response r = "Great! Let me book that appointment for you.").
Proof.
  unfold Api.chat_endpoint.
  destruct (PyStr.any_in Api.keywords (PyStr.lower (Api.message cm))) eqn:E.
  - rewrite (chat_endpoint_graph w sessions cm E). cbn [fst bind].
    eexists. eexists. split; [reflexivity|]. split; [reflexivity|].
    cbn [Api.booking_confirmed Api.response]. intros H.
    apply String.eqb_eq in H. rewrite H. split; reflexivity.
  - rewrite (chat_endpoint_completion w sessions cm E). cbn [fst bind].
    eexists. eexists. split; [reflexivity|]. split; [reflexivity|].
    cbn [Api.booking_confirmed]. discriminate.
Qed.

Lemma booking_confirmed_bool {V : Type} (w : World) (sessions : gmap string V)
      (cm : Api.ChatMessage) (resp : Api.ChatResponse) :
  Api.chat_endpoint w sessions cm = Ok resp ->
  Api.booking_confirmed resp
  = negb (PyStr.any_in booking_words (PyStr.lower (Api.message cm)))
    && negb (PyStr.any_in availability_words (PyStr.lower (Api.message cm)))
    && PyStr.any_in confirmation_words (PyStr.lower (Api.message cm)).
Proof.
  unfold Api.chat_endpoint.
  destruct (PyStr.any_in Api.keywords (PyStr.lower (Api.message cm))) eqn:E.
  - rewrite (chat_endpoint_graph w sessions cm E). cbn [fst bind]. intros [= <-].
    cbn [Api.booking_confirmed]. rewrite detect_intent_cases.
    destruct (PyStr.any_in booking_words _), (PyStr.any_in availability_words _),
      (PyStr.any_in confirmation_words _); reflexivity.
  - rewrite (chat_endpoint_completion w sessions cm E). cbn [fst bind].
    intros [= <-]. cbn [Api.booking_confirmed]. rewrite keywords_split in E.
    destruct (PyStr.any_in booking_words _), (PyStr.any_in availability_words _),
      (PyStr.any_in confirmation_words _); cbn in *; congruence.
Qed.

Lemma confirming_iff (text : string) :
  ((exists c, In c confirmation_words /\ contains_nocase c text)
   /\ (forall b, In b booking_words -> ~ contains_nocase b text)
   /\ (forall a, In a availability_words -> ~ contains_nocase a text))
  <-> negb (PyStr.any_in booking_words (PyStr.lower text))
      && negb (PyStr.any_in availability_words (PyStr.lower text))
      && PyStr.any_in confirmation_words (PyStr.lower text) = true.
Proof.
  rewrite <- (any_in_true confirmation_words).
  assert (Hno : forall ws,
             (forall x, In x ws -> ~ contains_nocase x text)
             <-> PyStr.any_in ws (PyStr.lower text) = false).
  { intros ws. split; [apply any_in_false|].
    intros H x Hx Hc.
    assert (PyStr.any_in ws (PyStr.lower text) = true)
      by (apply any_in_true; eauto).
    congruence. }
  rewrite !Hno.
  destruct (PyStr.any_in booking_words _), (PyStr.any_in availability_words _),
    (PyStr.any_in confirmation_words _); cbn; intuition congruence.
Qed.

(** X29. The client in front of a server that runs [chat_endpoint]: a
    text sent is always answered with status 200, the bot entry is the
    [response] of the endpoint, no error notice is shown, and the booking
    notice is shown exactly when the endpoint set [booking_confirmed]. *)
Theorem client_shows_endpoint_reply {V : Type} (w : World) (sessions : gmap string V)
        (env : Client.Env) (widgets : Client.Widgets) (st0 : Client.SessionState)
        (sid : string) :
  (forall url message session_id,
     Client.post env url message session_id
     = served_by w sessions url message session_id) ->
  Client.session_id st0 = Some sid ->
  Client.reset_button widgets = false ->
  Client.submit_button widgets = true -> Client.user_input widgets <> "" ->
  exists r,
    Api.chat_endpoint w sessions
      (Api.mkChatMessage (Client.user_input widgets) sid) = Ok r
    /\ Client.messages (Client.state (Client.script env widgets st0))
       = Some (Calendar.get_default (Client.messages st0) []
               ++ [Client.user_turn (Client.user_input widgets);
                   Client.bot_turn (JStr (Api.response r))])%list
    /\ Client.notices (Client.script env widgets st0)
       = if Api.booking_confirmed r
         then [Client.success "🎉 Appointment booked successfully!"; Client.balloons]
         else [].
Proof.
  intros Hpost Hsid Hr Hs Hu.
  destruct (chat_endpoint_returns w sessions
              (Api.mkChatMessage (Client.user_input widgets) sid))
    as (r & served & _ & Hok & _).
  exists r. split; [exact Hok|].
  unfold Client.script. rewrite Hsid, Hr, Hs.
  destruct (String.eqb_spec (Client.user_input widgets) "") as [E|_];
    [contradiction|].
  cbn [andb negb]. rewrite Hpost. unfold served_by. rewrite Hok.
  unfold response_json. rewrite answer_ok_object.
  cbn [Api.lookup_last String.eqb Ascii.eqb Bool.eqb Client.dict_get_or_none
       Api.truthy].
  cbn [Client.state Client.messages Client.notices].
  rewrite <- app_assoc. split; reflexivity.
Qed.

Lemma client_shows_endpoint_reply_witness :
  Client.messages
    (Client.state
       (Client.script (Client.mkEnv uuids (served_by demo_world no_sessions))
                      (sending "what's the weather") open_session))
  = Some [Client.user_turn "what's the weather";
          Client.bot_turn (JStr Api.key_not_found)].
Proof.
  destruct (client_shows_endpoint_reply demo_world no_sessions
              (Client.mkEnv uuids (served_by demo_world no_sessions))
              (sending "what's the weather") open_session "5f0c"
              ltac:(reflexivity) eq_refl eq_refl eq_refl ltac:(discriminate))
    as (r & Hr & Hm & _).
  rewrite Hm. injection Hr as <-. reflexivity.
Defined.

(** X30. End to end, a booking is announced without being made.  When
    the text sent has a confirmation word and no booking or availability
    word, the client shows "Appointment booked successfully!" under the
    reply "Great! Let me book that appointment for you.", while the server
    ran only the node [agent]: [call_tool], the only caller of
    [book_appointment], did not run.  For any other text no booking is
    announced. *)
Theorem client_announces_unmade_booking {V : Type} (w : World)
        (sessions : gmap string V) (env : Client.Env) (widgets : Client.Widgets)
        (st0 : Client.SessionState) (sid : string) :
  (forall url message session_id,
     Client.post env url message session_id
     = served_by w sessions url message session_id) ->
  Client.session_id st0 = Some sid ->
  Client.reset_button widgets = false ->
  Client.submit_button widgets = true -> Client.user_input widgets <> "" ->
  let text := Client.user_input widgets in
  let confirming :=
    (exists c, In c confirmation_words /\ contains_nocase c text)
    /\ (forall b, In b booking_words -> ~ contains_nocase b text)
    /\ (forall a, In a availability_words -> ~ contains_nocase a text) in
  (confirming ->
   Client.notices (Client.script env widgets st0)
   = [Client.success "🎉 Appointment booked successfully!"; Client.balloons]
   /\ (exists old,
         Client.messages (Client.state (Client.script env widgets st0))
         = Some (old ++ [Client.bot_turn
                           (JStr "Great! Let me book that appointment for you.")])%list)
   /\ exists r,
        fst (Api.chat_endpoint_traced w sessions (Api.mkChatMessage text sid))
        = Ok (r, Api.ByGraph [Agent.agent]))
  /\ (~ confirming -> Client.notices (Client.script env widgets st0) = []).
Proof.
  intros Hpost Hsid Hr Hs Hu. cbv zeta.
  destruct (chat_endpoint_returns w sessions
              (Api.mkChatMessage (Client.user_input widgets) sid))
    as (r & served & Htr & Hok & Hconf).
  assert (Hscript :
            Client.script env widgets st0
            = {| Client.state :=
                   Client.mkSession (Some sid)
                     (Some ((Calendar.get_default (Client.messages st0) []
                             ++ [Client.user_turn (Client.user_input widgets)])
                            ++ [Client.bot_turn (JStr (Api.response r))])%list)
                     (Some (Calendar.get_default (Client.api_url_box widgets)
                              (Calendar.get_default (Client.api_url st0)
                                 "http://localhost:8000")));
                 Client.notices :=
                   if Api.booking_confirmed r
                   then [Client.success "🎉 Appointment booked successfully!";
                         Client.balloons]
                   else [];
                 Client.rerun := true |}).
  { unfold Client.script. rewrite Hsid, Hr, Hs.
    destruct (String.eqb_spec (Client.user_input widgets) "") as [E|_];
      [contradiction|].
    cbn [andb negb]. rewrite Hpost. unfold served_by. rewrite Hok.
    unfold response_json. rewrite answer_ok_object.
    cbn [Api.lookup_last String.eqb Ascii.eqb Bool.eqb Client.dict_get_or_none
         Api.truthy].
    reflexivity. }
  rewrite Hscript. cbn [Client.state Client.messages Client.notices].
  pose proof (booking_confirmed_bool w sessions
                (Api.mkChatMessage (Client.user_input widgets) sid) r Hok) as Hb.
  cbn [Api.message] in Hb.
  pose proof (confirming_iff (Client.user_input widgets)) as Hiff.
  rewrite <- Hb in Hiff.
  split.
  - intros Hc. apply Hiff in Hc. destruct (Hconf Hc) as [-> Hresp].
    rewrite Hc, Hresp. split; [reflexivity|]. split.
    + eexists. reflexivity.
    + exists r. now rewrite Htr.
  - intros Hn. destruct (Api.booking_confirmed r); [|reflexivity].
    destruct Hn. now apply Hiff.
Qed.

Lemma client_announces_unmade_booking_witness :
  Client.notices
    (Client.script (Client.mkEnv uuids (served_by demo_world no_sessions))
                   (sending "yes, confirm it") open_session)
  = [Client.success "🎉 Appointment booked successfully!"; Client.balloons]
  /\ exists r,
       fst (Api.chat_endpoint_traced demo_world no_sessions
              (Api.mkChatMessage "yes, confirm it" "5f0c"))
       = Ok (r, Api.ByGraph [Agent.agent]).
Proof.
  destruct (proj1 (client_announces_unmade_booking demo_world no_sessions
              (Client.mkEnv uuids (served_by demo_world no_sessions))
              (sending "yes, confirm it") open_session "5f0c"
              ltac:(reflexivity) eq_refl eq_refl eq_refl ltac:(discriminate)))
    as (H1 & _ & H2).
  - split; [|split].
    + exists "yes". split; [cbn; tauto | exists "yes"; split; reflexivity].
    + intros b Hb. rewrite contains_nocase_iff.
      cbn in Hb. destruct Hb as [<-|[<-|[<-|[<-|[]]]]]; vm_compute; discriminate.
    + intros a Ha. rewrite contains_nocase_iff.
      cbn in Ha. destruct Ha as [<-|[<-|[<-|[]]]]; vm_compute; discriminate.
  - split; [exact H1 | exact H2].
Defined.
